(** * The Toolchain driver of ofrak_patch_maker (toolchain/abstract.py)

    A shallow embedding of [Toolchain]: parser selection at construction,
    the process runner [_execute_tool], the pipeline stages [preprocess],
    [compile], [assemble] and [link], and the two policies
    [linker_include_filter] and [keep_section].

    Python strings are [string], lists are [list], dictionaries are [gmap];
    the interpreter state the code touches (the dictionary heap holding
    [os.environ], the working directory, the logger, the processes that were
    started) is threaded explicitly through a state-and-exception monad. *)

From stdpp Require Import base option list strings pretty gmap fin_maps.
From Stdlib Require Import ZArith Lia Ascii String.

Local Open Scope string_scope.
Local Open Scope Z_scope.
Local Open Scope list_scope.

(** ** Python string primitives *)

Module PyStr.

(** [p.startswith(q)] *)
Definition startswith (q p : string) : bool := String.prefix q p.

(** [q in p] for two [str]: [q] occurs as a contiguous substring of [p]. *)
Fixpoint contains (q p : string) : bool :=
  startswith q p ||
  match p with
  | EmptyString => false
  | String _ p' => contains q p'
  end.

(** [p.endswith(q)] *)
Fixpoint endswith (q p : string) : bool :=
  String.eqb q p ||
  match p with
  | EmptyString => false
  | String _ p' => endswith q p'
  end.

(** [c * n] for a one-character [c]. *)
Fixpoint repeat (c : ascii) (n : nat) : string :=
  match n with
  | O => EmptyString
  | S n' => String c (repeat c n')
  end.

(** [p.rfind(c)]: the highest index holding [c], or [-1]. *)
Fixpoint rfind (c : ascii) (p : string) : Z :=
  match p with
  | EmptyString => -1
  | String a p' =>
      let r := rfind c p' in
      if 0 <=? r then r + 1
      else if Ascii.eqb a c then 0 else -1
  end.

(** [p[:i]] and [p[i:]] for [0 <= i]. *)
Definition slice_to (i : Z) (p : string) : string :=
  String.substring 0 (Z.to_nat i) p.
Definition slice_from (i : Z) (p : string) : string :=
  String.substring (Z.to_nat i) (String.length p - Z.to_nat i) p.

(** [p.rstrip(c)] *)
Fixpoint rstrip (c : ascii) (p : string) : string :=
  match p with
  | EmptyString => EmptyString
  | String a p' =>
      match rstrip c p' with
      | EmptyString => if Ascii.eqb a c then EmptyString else String a EmptyString
      | r => String a r
      end
  end.

(** [p.split(c)] *)
Fixpoint split (c : ascii) (p : string) : list string :=
  match p with
  | EmptyString => [EmptyString]
  | String a p' =>
      if Ascii.eqb a c then EmptyString :: split c p'
      else match split c p' with
           | h :: t => String a h :: t
           | [] => [String a EmptyString]
           end
  end.

(** [sep.join(l)] *)
Fixpoint join (sep : string) (l : list string) : string :=
  match l with
  | [] => EmptyString
  | [x] => x
  | x :: l' => x +:+ sep +:+ join sep l'
  end.

(** [p.upper()] on ASCII text. *)
Definition upper_ascii (a : ascii) : ascii :=
  let n := nat_of_ascii a in
  if (97 <=? n)%nat && (n <=? 122)%nat then ascii_of_nat (n - 32) else a.
Fixpoint upper (p : string) : string :=
  match p with
  | EmptyString => EmptyString
  | String a p' => String (upper_ascii a) (upper p')
  end.

(** ["\0" in p] *)
Definition has_nul (p : string) : bool :=
  contains (String Ascii.zero EmptyString) p.

(** The byte [a] lies in [lo..hi]. *)
Definition byte_in (lo hi : nat) (a : ascii) : bool :=
  let n := nat_of_ascii a in (lo <=? n)%nat && (n <=? hi)%nat.

(** [raw.decode("utf-8")] succeeds (error handler [strict]): [raw] is
    well-formed UTF-8, with no overlong form, no surrogate and nothing above
    U+10FFFF. A decoded [str] is kept as its UTF-8 bytes. *)
Fixpoint utf8_valid (raw : string) : bool :=
  match raw with
  | EmptyString => true
  | String a s1 =>
      if byte_in 0 127 a then utf8_valid s1
      else if byte_in 194 223 a then
        match s1 with
        | String b s2 => byte_in 128 191 b && utf8_valid s2
        | _ => false
        end
      else if byte_in 224 239 a then
        match s1 with
        | String b (String c s3) =>
            byte_in (if byte_in 224 224 a then 160 else 128)
                    (if byte_in 237 237 a then 159 else 191) b
            && byte_in 128 191 c && utf8_valid s3
        | _ => false
        end
      else if byte_in 240 244 a then
        match s1 with
        | String b (String c (String d s4)) =>
            byte_in (if byte_in 240 240 a then 144 else 128)
                    (if byte_in 244 244 a then 143 else 191) b
            && byte_in 128 191 c && byte_in 128 191 d && utf8_valid s4
        | _ => false
        end
      else false
  end.

Definition CR : ascii := ascii_of_nat 13.
Definition LF : ascii := ascii_of_nat 10.

(** [p.replace("\r\n", "\n")] *)
Fixpoint replace_crlf (p : string) : string :=
  match p with
  | EmptyString => EmptyString
  | String a s1 =>
      match s1 with
      | String b s2 =>
          if Ascii.eqb a CR && Ascii.eqb b LF then String LF (replace_crlf s2)
          else String a (replace_crlf s1)
      | EmptyString => String a EmptyString
      end
  end.

(** [p.replace("\r", "\n")] *)
Fixpoint replace_cr (p : string) : string :=
  match p with
  | EmptyString => EmptyString
  | String a s1 => String (if Ascii.eqb a CR then LF else a) (replace_cr s1)
  end.

(** Universal newlines, as text mode reads them:
    [data.replace("\r\n", "\n").replace("\r", "\n")]. *)
Definition translate_newlines (data : string) : string :=
  replace_cr (replace_crlf data).

(** The byte string with the given byte values. *)
Fixpoint bytes (l : list nat) : string :=
  match l with
  | [] => EmptyString
  | n :: l' => String (ascii_of_nat n) (bytes l')
  end.

End PyStr.

(** ** posixpath: the [os.path] functions the driver calls *)

Module PosixPath.

Definition sep : ascii := "/"%char.
Definition sep_s : string := "/".

(** [os.path.split(p)] *)
Definition split (p : string) : string * string :=
  let i := PyStr.rfind sep p + 1 in
  let head := PyStr.slice_to i p in
  let tail := PyStr.slice_from i p in
  let head :=
    if negb (String.eqb head EmptyString)
       && negb (String.eqb head (PyStr.repeat sep (String.length head)))
    then PyStr.rstrip sep head else head in
  (head, tail).

(** One round of the loop of [os.path.join(a, *p)]. *)
Definition join_step (path b : string) : string :=
  if PyStr.startswith sep_s b then b
  else if String.eqb path EmptyString || PyStr.endswith sep_s path then path +:+ b
  else path +:+ sep_s +:+ b.

Definition join (a : string) (p : list string) : string :=
  fold_left join_step p a.

(** [os.path.isabs(p)] *)
Definition isabs (p : string) : bool := PyStr.startswith sep_s p.

(** [new_comps[-1] == dotdot], guarded by [new_comps] being non-empty. *)
Definition last_is_dotdot (new_comps : list string) : bool :=
  match last new_comps with
  | Some c => String.eqb c ".."
  | None => false
  end.

(** The body of the [for comp in comps] loop of [normpath]. *)
Definition normpath_step (initial_slashes : nat)
    (new_comps : list string) (comp : string) : list string :=
  if String.eqb comp EmptyString || String.eqb comp "." then new_comps
  else if negb (String.eqb comp "..")
          || (Nat.eqb initial_slashes 0 && bool_decide (new_comps = []))
          || (negb (bool_decide (new_comps = [])) && last_is_dotdot new_comps)
  then new_comps ++ [comp]
  else if negb (bool_decide (new_comps = [])) then removelast new_comps
  else new_comps.

Definition initial_slashes_of (path : string) : nat :=
  if PyStr.startswith sep_s path then
    if PyStr.startswith "//" path && negb (PyStr.startswith "///" path)
    then 2%nat else 1%nat
  else 0%nat.

(** [os.path.normpath(path)] *)
Definition normpath (path : string) : string :=
  if String.eqb path EmptyString then "."
  else
    let initial_slashes := initial_slashes_of path in
    let comps := PyStr.split sep path in
    let comps := fold_left (normpath_step initial_slashes) comps [] in
    let path := PyStr.join sep_s comps in
    let path := PyStr.repeat sep initial_slashes +:+ path in
    if String.eqb path EmptyString then "." else path.

(** A path component: a non-empty name without a separator. *)
Definition is_component (x : string) : Prop :=
  x ≠ EmptyString ∧ PyStr.contains "/" x = false.

(** [os.path.abspath(path)], with [cwd] the value of [os.getcwd()]. *)
Definition abspath (cwd path : string) : string :=
  let path := if negb (isabs path) then join cwd [path] else path in
  normpath path.

End PosixPath.

(** ** Exceptions, interpreter state and the monad of effects *)

Inductive exn : Type :=
  | ValueError (msg : string)
  | NotImplementedError (msg : string)
  | CalledProcessError (returncode : Z) (cmd : list string)
  | OSError (msg : string)
  | UnicodeDecodeError (encoding : string) (object : string)
  | OtherException (kind msg : string).

Inductive Result (A : Type) : Type :=
  | Ok (a : A)
  | Raise (e : exn).
Arguments Ok {A} a.
Arguments Raise {A} e.

(** A call of [subprocess.run(args, env=...)]: the argument vector and the
    environment handed over ([None]: the child inherits the ambient one). *)
Record Invocation : Type := {
  inv_args : list string;
  inv_env : option (gmap string string)
}.

(** Records of [logger.info]. The second form stands for the message
    [f"With env: {my_env}"], kept with the dictionary it renders. *)
Inductive LogRecord : Type :=
  | Info (msg : string)
  | InfoWithEnv (my_env : gmap string string).

(** Dictionaries are objects: a variable holds an address, the contents live
    in [heap]. [os.environ] is the object at address [os_environ]. *)
Record World : Type := {
  heap : gmap nat (gmap string string);
  cwd : string;
  log : list LogRecord;
  calls : list Invocation
}.

Definition os_environ : nat := 0%nat.

Definition deref (w : World) (a : nat) : gmap string string :=
  default ∅ (heap w !! a).

Definition M (A : Type) : Type := World → Result A * World.

#[global] Instance M_ret : MRet M := λ A a w, (Ok a, w).
#[global] Instance M_bind : MBind M := λ A B f m w,
  match m w with
  | (Ok a, w') => f a w'
  | (Raise e, w') => (Raise e, w')
  end.

Definition raise {A} (e : exn) : M A := λ w, (Raise e, w).
Definition lift {A} (r : Result A) : M A := λ w, (r, w).

(** [try: body  except CalledProcessError as e: handler(e)] *)
Definition try_except_CalledProcessError {A}
    (body : M A) (handler : Z → list string → M A) : M A := λ w,
  match body w with
  | (Raise (CalledProcessError rc cmd), w') => handler rc cmd w'
  | r => r
  end.

(** [logger.info(...)] *)
Definition logger_info (r : LogRecord) : M unit := λ w,
  (Ok tt, {| heap := heap w; cwd := cwd w; log := log w ++ [r]; calls := calls w |}).

(** [os.getcwd()] *)
Definition os_getcwd : M string := λ w, (Ok (cwd w), w).

(** [d.copy()]: a new dictionary object with the contents of [d]. *)
Definition dict_copy (d : nat) : M nat := λ w,
  let a := fresh (dom (heap w)) in
  (Ok a, {| heap := <[a := deref w d]> (heap w); cwd := cwd w;
            log := log w; calls := calls w |}).

(** [d.update(other)]: in place, the entries of [other] win. *)
Definition dict_update (d : nat) (other : gmap string string) : M unit := λ w,
  (Ok tt, {| heap := <[d := other ∪ deref w d]> (heap w); cwd := cwd w;
             log := log w; calls := calls w |}).

(** Reading a dictionary object. *)
Definition dict_read (d : nat) : M (gmap string string) := λ w, (Ok (deref w d), w).

(** The environment a child process runs in: the one it was handed, or the
    ambient [os.environ] as it is when the child starts. *)
Definition child_environment (ambient : gmap string string) (i : Invocation)
    : gmap string string :=
  default ambient (inv_env i).

(** ** The collaborators that live outside toolchain/abstract.py *)

(** What the operating system does with a program it is asked to run: the
    child runs to its end, leaving an exit status and the bytes it wrote to
    its standard output, or the program cannot be started. *)
Inductive ProcOutcome : Type :=
  | Exited (returncode : Z) (stdout : string)
  | NotStarted (msg : string).

(** The host: the repository configuration ([toolchain.utils]) and the
    operating system that runs a child process to completion. What a child
    does may depend on everything that ran before it, on its argument vector
    and on the environment it is given. *)
Class Host : Type := {
  get_repository_config : string → string → Result string;
  run_process : list Invocation → list string → option (gmap string string) → ProcOutcome
}.

(** The members of [ofrak_type] the driver compares against. *)
Class OfrakType : Type := {
  InstructionSet : Type;
  InstructionSet_eq_dec :: EqDecision InstructionSet;
  M68K : InstructionSet;
  X86 : InstructionSet;
  isa_value : InstructionSet → string;
  BitWidth : Type;
  BitWidth_eq_dec :: EqDecision BitWidth;
  BIT_64 : BitWidth
}.

Record CompletedProcess : Type := {
  proc_returncode : Z;
  proc_stdout : string
}.

(** What [Popen] refuses before any child exists: an environment variable
    name that holds [=], then a NUL byte in an argument or in an environment
    entry. Both are [ValueError]s of [subprocess], raised inside [run]. *)
Definition _execute_child_check (args : list string)
    (env : option (gmap string string)) : option exn :=
  if match env with
     | Some e => existsb (λ kv, PyStr.contains "=" kv.1) (map_to_list e)
     | None => false
     end
  then Some (ValueError "illegal environment variable name")
  else if existsb PyStr.has_nul args
          || match env with
             | Some e => existsb (λ kv, PyStr.has_nul kv.1 || PyStr.has_nul kv.2)
                           (map_to_list e)
             | None => false
             end
  then Some (ValueError "embedded null byte")
  else None.

(** [subprocess.run(args, stdout=PIPE, encoding="utf-8", check=True, env=env)].
    [env] is the address of a dictionary, or [None]. The call is recorded,
    then: the arguments are checked; the program is started and runs to its
    end; its output is decoded as UTF-8 ([UnicodeDecodeError], a subclass of
    [ValueError], when it is not well-formed) with line ends translated; and
    with [check=True] a non-zero exit status raises [CalledProcessError]. *)
Definition subprocess_run `{Host} (args : list string) (env : option nat)
    : M CompletedProcess := λ w,
  let e := deref w <$> env in
  let w' := {| heap := heap w; cwd := cwd w; log := log w;
               calls := calls w ++ [{| inv_args := args; inv_env := e |}] |} in
  match _execute_child_check args e with
  | Some err => (Raise err, w')
  | None =>
      match run_process (calls w) args e with
      | Exited rc raw =>
          if PyStr.utf8_valid raw then
            if bool_decide (rc = 0)
            then (Ok {| proc_returncode := rc;
                        proc_stdout := PyStr.translate_newlines raw |}, w')
            else (Raise (CalledProcessError rc args), w')
          else (Raise (UnicodeDecodeError "utf-8" raw), w')
      | NotStarted msg => (Raise (OSError msg), w')
      end
  end.

(** ** Data model *)

(** A member of the [BinFileType] enumeration, as the object it is:
    [ob_id] is its identity (what [is] compares), [name] and [value] are
    its contents. *)
Module BinFileType.
Record t : Type := { ob_id : nat; name : string; value : string }.
End BinFileType.

(** [a is b] *)
Definition py_is (a b : BinFileType.t) : bool :=
  Nat.eqb (BinFileType.ob_id a) (BinFileType.ob_id b).

(** The fields of [ToolchainConfig] that the driver reads. *)
Module ToolchainConfig.
Record t : Type := {
  file_format : BinFileType.t;
  userspace_dynamic_linker : option string;
  relocatable : bool;
  separate_data_sections : bool;
  create_map_files : bool
}.
End ToolchainConfig.

Module AbstractBinaryFileParser.
Record t : Type := { file_format : BinFileType.t; label : string }.
End AbstractBinaryFileParser.

Module ArchInfo.
Record t `{OfrakType} : Type := { isa : InstructionSet; bit_width : BitWidth }.
End ArchInfo.

(** What a concrete back end supplies: the abstract members of [Toolchain]
    and the class attribute [binary_file_parsers]. *)
Class Backend `{OfrakType} : Type := {
  binary_file_parsers : list AbstractBinaryFileParser.t;
  name : string;
  _get_assembler_target : ToolchainConfig.t → ArchInfo.t → Result string;
  _get_compiler_target : ToolchainConfig.t → ArchInfo.t → Result (option string);
  _linker_script_flag : string;
  segment_alignment : Z;
  _get_linker_map_flag : string → list string
}.

(** The instance attributes set by [Toolchain.__init__]. *)
Record Toolchain `{OfrakType} : Type := {
  _processor : ArchInfo.t;
  file_format : BinFileType.t;
  _parser : AbstractBinaryFileParser.t;
  _preprocessor_flags : list string;
  _compiler_flags : list string;
  _assembler_flags : list string;
  _linker_flags : list string;
  _config : ToolchainConfig.t;
  _linker_keep_list : list string;
  _linker_discard_list : list string;
  _assembler_target : string;
  _compiler_target : option string
}.

(** ** The driver *)

Section Driver.
Context `{OT : OfrakType} `{HO : !Host} `{BE : !Backend}.

(** The scan of [binary_file_parsers] in [__init__]: the first parser whose
    format is the configured one ([is]) is kept, then [break]. *)
Fixpoint __init___scan (parsers : list AbstractBinaryFileParser.t)
    (fmt : BinFileType.t) : option AbstractBinaryFileParser.t :=
  match parsers with
  | [] => None
  | parser :: rest =>
      if py_is (AbstractBinaryFileParser.file_format parser) fmt
      then Some parser
      else __init___scan rest fmt
  end.

Definition no_parser_message (toolchain_config : ToolchainConfig.t) : string :=
  "No binary file parser found for format "
  +:+ BinFileType.name (ToolchainConfig.file_format toolchain_config) +:+ "!".

(** [Toolchain.__init__(processor, toolchain_config)] *)
Definition __init__ (processor : ArchInfo.t)
    (toolchain_config : ToolchainConfig.t) : Result Toolchain :=
  match __init___scan binary_file_parsers
          (ToolchainConfig.file_format toolchain_config) with
  | None => Raise (ValueError (no_parser_message toolchain_config))
  | Some parser =>
      match _get_assembler_target toolchain_config processor with
      | Raise e => Raise e
      | Ok assembler_target =>
          match _get_compiler_target toolchain_config processor with
          | Raise e => Raise e
          | Ok compiler_target =>
              Ok {| _processor := processor;
                    file_format := ToolchainConfig.file_format toolchain_config;
                    _parser := parser;
                    _preprocessor_flags := [];
                    _compiler_flags := [];
                    _assembler_flags := [];
                    _linker_flags := [];
                    _config := toolchain_config;
                    _linker_keep_list := [".data"; ".rodata"; ".text"; ".rel"];
                    _linker_discard_list :=
                      [".gnu.hash"; ".comment"; ".ARM.attributes"; ".dynamic";
                       ".ARM.exidx"; ".hash"; ".dynsym"; ".dynstr"; ".eh_frame"];
                    _assembler_target := assembler_target;
                    _compiler_target := compiler_target |}
          end
      end
  end.

(** The tool paths, looked up in the repository configuration. *)
Definition _assembler_path (self : Toolchain) : M string :=
  let assembler_path :=
    if bool_decide (ArchInfo.isa (_processor self) = M68K) then "M68K_ASM_PATH"
    else if bool_decide (ArchInfo.isa (_processor self) = X86)
            && bool_decide (ArchInfo.bit_width (_processor self) = BIT_64)
    then "X86_64_ASM_PATH"
    else PyStr.upper (isa_value (ArchInfo.isa (_processor self))) +:+ "_ASM_PATH" in
  lift (get_repository_config "ASM" assembler_path).

Definition _preprocessor_path : M string :=
  lift (get_repository_config name "PREPROCESSOR").
Definition _compiler_path : M string :=
  lift (get_repository_config name "COMPILER").
Definition _linker_path : M string :=
  lift (get_repository_config name "LINKER").
Definition _readobj_path : M string :=
  lift (get_repository_config name "BIN_PARSER").
Definition _lib_path : M string :=
  lift (get_repository_config name "LIB").

Definition is_userspace (self : Toolchain) : bool :=
  bool_decide (ToolchainConfig.userspace_dynamic_linker (_config self) ≠ None).

Definition is_relocatable (self : Toolchain) : bool :=
  ToolchainConfig.relocatable (_config self).

(** The argument vector [_execute_tool] builds. *)
Definition _execute_tool_args (tool_path : string) (flags in_files : list string)
    (out_file : option string) : list string :=
  let final_flags := [] ++ flags in
  let final_flags :=
    match out_file with
    | Some o => final_flags ++ ["-o" +:+ o]
    | None => final_flags
    end in
  [tool_path] ++ final_flags ++ in_files.

Definition dquote : string := String (ascii_of_nat 34) EmptyString.

Definition nonzero_exit_message (cmd : string) (returncode : Z) : string :=
  "Command " +:+ dquote +:+ cmd +:+ dquote
  +:+ " returned non-zero exit status " +:+ pretty returncode.

(** [if env:] for [env] a dictionary or [None]. *)
Definition env_truthy (env : option (gmap string string)) : bool :=
  match env with
  | Some e => negb (bool_decide (e = ∅))
  | None => false
  end.

(** The environment argument of the [subprocess.run] call, as a value:
    the overlay on top of [os.environ], or [None] when [env] is falsy. *)
Definition handed_environment (env : option (gmap string string)) (w : World)
    : option (gmap string string) :=
  if env_truthy env then Some (default ∅ env ∪ deref w os_environ) else None.

(** [Toolchain._execute_tool(tool_path, flags, in_files, out_file, env)] *)
Definition _execute_tool (tool_path : string) (flags in_files : list string)
    (out_file : option string) (env : option (gmap string string)) : M string :=
  let args := _execute_tool_args tool_path flags in_files out_file in
  _ ← logger_info (Info (PyStr.join " " args));
  proc ← try_except_CalledProcessError
    (if env_truthy env then
       my_env ← dict_copy os_environ;
       _ ← dict_update my_env (default ∅ env);
       shown ← dict_read my_env;
       _ ← logger_info (InfoWithEnv shown);
       subprocess_run args (Some my_env)
     else subprocess_run args None)
    (λ returncode _,
       let cmd := PyStr.join " " args in
       raise (ValueError (nonzero_exit_message cmd returncode)));
  mret (proc_stdout proc).

(** What [_execute_tool] answers, given what the operating system did. *)
Definition answer_of (args : list string) (env : option (gmap string string))
    (o : ProcOutcome) : Result string :=
  match _execute_child_check args env with
  | Some err => Raise err
  | None =>
      match o with
      | Exited rc raw =>
          if PyStr.utf8_valid raw then
            if bool_decide (rc = 0) then Ok (PyStr.translate_newlines raw)
            else Raise (ValueError (nonzero_exit_message (PyStr.join " " args) rc))
          else Raise (UnicodeDecodeError "utf-8" raw)
      | NotStarted msg => Raise (OSError msg)
      end
  end.

(** The argument order as the specification words it: tool, fixed flags,
    [-I] flags, input files, output flag. *)
Definition argv_as_specified (tool_path : string)
    (flags header_dirs in_files : list string) (out_file : option string)
    : list string :=
  [tool_path] ++ flags ++ ((λ x, "-I" +:+ x) <$> header_dirs) ++ in_files
  ++ match out_file with Some o => ["-o" +:+ o] | None => [] end.

(** [os.path.abspath(path)] in the current working directory. *)
Definition os_path_abspath (path : string) : M string :=
  if negb (PosixPath.isabs path)
  then cwd ← os_getcwd; mret (PosixPath.normpath (PosixPath.join cwd [path]))
  else mret (PosixPath.normpath path).

Definition include_flags (header_dirs : list string) : list string :=
  (λ x, "-I" +:+ x) <$> header_dirs.

(** [Toolchain.preprocess(source_file, header_dirs, out_dir)] *)
Definition preprocess (self : Toolchain) (source_file : string)
    (header_dirs : list string) (out_dir : string) : M string :=
  let out_file := PosixPath.join out_dir [snd (PosixPath.split source_file) +:+ ".p"] in
  tool ← _preprocessor_path;
  _ ← _execute_tool tool (_preprocessor_flags self)
        ([source_file] ++ include_flags header_dirs) (Some out_file) None;
  os_path_abspath out_file.

(** [Toolchain.compile(c_file, header_dirs, out_dir)] *)
Definition compile (self : Toolchain) (c_file : string)
    (header_dirs : list string) (out_dir : string) : M string :=
  let out_file := PosixPath.join out_dir [snd (PosixPath.split c_file) +:+ ".o"] in
  tool ← _compiler_path;
  _ ← _execute_tool tool (_compiler_flags self)
        ([c_file] ++ include_flags header_dirs) (Some out_file) None;
  os_path_abspath out_file.

(** [Toolchain.assemble(asm_file, header_dirs, out_dir)] *)
Definition assemble (self : Toolchain) (asm_file : string)
    (header_dirs : list string) (out_dir : string) : M string :=
  let out_file := PosixPath.join out_dir [snd (PosixPath.split asm_file) +:+ ".o"] in
  tool ← _assembler_path self;
  _ ← _execute_tool tool (_assembler_flags self)
        ([asm_file] ++ include_flags header_dirs) (Some out_file) None;
  os_path_abspath out_file.

(** The flags [link] hands to [_execute_tool]. *)
Definition link_flags (self : Toolchain) (exec_path : string)
    (script : option string) : list string :=
  let flags := [] ++ _linker_flags self in
  let flags :=
    match script with
    | Some s => flags ++ [_linker_script_flag +:+ s]
    | None => flags
    end in
  if ToolchainConfig.create_map_files (_config self)
  then flags ++ _get_linker_map_flag exec_path
  else flags.

(** [Toolchain.link(o_files, exec_path, script)] *)
Definition link (self : Toolchain) (o_files : list string) (exec_path : string)
    (script : option string) : M unit :=
  let flags := link_flags self exec_path script in
  tool ← _linker_path;
  _ ← _execute_tool tool flags o_files (Some exec_path) None;
  mret tt.

(** [Toolchain.linker_include_filter(symbol_name)] *)
Definition linker_include_filter (symbol_name : string) : bool :=
  PyStr.contains "." symbol_name || PyStr.contains "_DYNAMIC" symbol_name.

(** [Toolchain.keep_section(section_name)] *)
Definition keep_section (self : Toolchain) (section_name : string) : Result bool :=
  if ToolchainConfig.separate_data_sections (_config self)
  then Raise (NotImplementedError
                "you must override keep_section() in your Toolchain sublass")
  else Ok (bool_decide (section_name ∈ _linker_keep_list self)).

(** [Toolchain.ld_generate_placeholder_reloc_sections()] *)
Definition ld_generate_placeholder_reloc_sections (self : Toolchain)
    : list string * list string := ([], []).

End Driver.

(** ** A small concrete installation, used to run the driver *)

Module Demo.

Inductive isa : Type := arm | m68k | x86.
Inductive width : Type := bit_32 | bit_64.

#[global] Instance isa_eq_dec : EqDecision isa.
Proof. solve_decision. Defined.
#[global] Instance width_eq_dec : EqDecision width.
Proof. solve_decision. Defined.

Definition ofrak_type : OfrakType := {|
  InstructionSet := isa;
  M68K := m68k;
  X86 := x86;
  isa_value := λ i, match i with arm => "arm" | m68k => "m68k" | x86 => "x86" end;
  BitWidth := width;
  BIT_64 := bit_64
|}.

(** A configuration file with four entries; every child exits with [rc]. *)
Definition host (rc : Z) : Host := {|
  get_repository_config := λ section key,
    if String.eqb key "PREPROCESSOR" then Ok "cpp"
    else if String.eqb key "COMPILER" then Ok "gcc"
    else if String.eqb key "LINKER" then Ok "ld"
    else if String.eqb key "ARM_ASM_PATH" then Ok "as"
    else Raise (OtherException "NotFoundError" key);
  run_process := λ _ _ _, Exited rc "done"
|}.

Definition ELF : BinFileType.t :=
  {| BinFileType.ob_id := 1; BinFileType.name := "ELF"; BinFileType.value := "elf" |}.
Definition COFF : BinFileType.t :=
  {| BinFileType.ob_id := 2; BinFileType.name := "COFF"; BinFileType.value := "coff" |}.
(** Same contents as [ELF], another object. *)
Definition ELF_twin : BinFileType.t :=
  {| BinFileType.ob_id := 7; BinFileType.name := "ELF"; BinFileType.value := "elf" |}.

Definition elf_parser : AbstractBinaryFileParser.t :=
  {| AbstractBinaryFileParser.file_format := ELF;
     AbstractBinaryFileParser.label := "first ELF parser" |}.
Definition elf_parser' : AbstractBinaryFileParser.t :=
  {| AbstractBinaryFileParser.file_format := ELF;
     AbstractBinaryFileParser.label := "second ELF parser" |}.
Definition coff_parser : AbstractBinaryFileParser.t :=
  {| AbstractBinaryFileParser.file_format := COFF;
     AbstractBinaryFileParser.label := "COFF parser" |}.

Definition backend : @Backend ofrak_type := {|
  binary_file_parsers := [coff_parser; elf_parser; elf_parser'];
  name := "GNU";
  _get_assembler_target := λ _ _, Ok "armv7-a";
  _get_compiler_target := λ _ _, Ok None;
  _linker_script_flag := "-T";
  segment_alignment := 4;
  _get_linker_map_flag := λ exec_path, ["-Map"; exec_path +:+ ".map"]
|}.

Definition processor : @ArchInfo.t ofrak_type :=
  {| ArchInfo.isa := arm : @InstructionSet ofrak_type;
     ArchInfo.bit_width := bit_32 : @BitWidth ofrak_type |}.

Definition config (fmt : BinFileType.t) (separate create_map : bool)
    : ToolchainConfig.t := {|
  ToolchainConfig.file_format := fmt;
  ToolchainConfig.userspace_dynamic_linker := None;
  ToolchainConfig.relocatable := false;
  ToolchainConfig.separate_data_sections := separate;
  ToolchainConfig.create_map_files := create_map
|}.

(** The driver [__init__] builds for [config ELF separate create_map]. *)
Definition toolchain (separate create_map : bool) : @Toolchain ofrak_type := {|
  _processor := processor;
  file_format := ELF;
  _parser := elf_parser;
  _preprocessor_flags := [];
  _compiler_flags := [];
  _assembler_flags := [];
  _linker_flags := [];
  _config := config ELF separate create_map;
  _linker_keep_list := [".data"; ".rodata"; ".text"; ".rel"];
  _linker_discard_list :=
    [".gnu.hash"; ".comment"; ".ARM.attributes"; ".dynamic";
     ".ARM.exidx"; ".hash"; ".dynsym"; ".dynstr"; ".eh_frame"];
  _assembler_target := "armv7-a";
  _compiler_target := None
|}.

(** A process with two environment variables, sitting in [/home/u]. *)
Definition world : World := {|
  heap := {[ os_environ := {[ "PATH" := "/usr/bin"; "HOME" := "/home/u" ]} ]};
  cwd := "/home/u";
  log := [];
  calls := []
|}.

End Demo.

(** ** Shapes of paths and two more installations *)

(** A plain name: a component that is neither [.] nor [..]. *)
Definition is_plain_component (x : string) : Prop :=
  PosixPath.is_component x ∧ x ≠ "." ∧ x ≠ "..".

(** An installation without any configured tool. *)
Module Bare.
Definition host : Host := {|
  get_repository_config := λ _ key, Raise (OtherException "NotFoundError" key);
  run_process := λ _ _ _, Exited 0 EmptyString
|}.

(** Tools are configured and exit with [rc] after writing the byte [0xff]. *)
Definition garbled (rc : Z) : Host := {|
  get_repository_config := λ _ key, Ok ("/opt/" +:+ key);
  run_process := λ _ _ _, Exited rc (PyStr.bytes [255%nat])
|}.

(** Tools are configured but none of them can be started. *)
Definition no_tool : Host := {|
  get_repository_config := λ _ key, Ok ("/opt/" +:+ key);
  run_process := λ _ _ _, NotStarted "No such file or directory"
|}.

(** A back end that cannot name an assembler target. *)
Definition backend : @Backend Demo.ofrak_type := {|
  binary_file_parsers := [Demo.elf_parser];
  name := "BARE";
  _get_assembler_target := λ _ _,
    Raise (OtherException "PatchMakerException" "no assembler target");
  _get_compiler_target := λ _ _, Ok None;
  _linker_script_flag := "-T";
  segment_alignment := 4;
  _get_linker_map_flag := λ _, []
|}.
End Bare.

(** * Properties *)

(** ** The library functions on concrete inputs *)

Example split_usr_lib : PosixPath.split "/usr/lib/a.c" = ("/usr/lib", "a.c").
Proof. reflexivity. Qed.
Example split_root : PosixPath.split "//a.c" = ("//", "a.c").
Proof. reflexivity. Qed.
Example split_plain : PosixPath.split "a.c" = (EmptyString, "a.c").
Proof. reflexivity. Qed.
Example split_trailing : PosixPath.split "src/" = ("src", EmptyString).
Proof. reflexivity. Qed.
Example join_rel : PosixPath.join "." ["a.c.p"] = "./a.c.p".
Proof. reflexivity. Qed.
Example join_slash : PosixPath.join "out/" ["a.c.p"] = "out/a.c.p".
Proof. reflexivity. Qed.
Example normpath_dots : PosixPath.normpath "/a/./b/../c//d" = "/a/c/d".
Proof. reflexivity. Qed.
Example normpath_up : PosixPath.normpath "../../x/.." = "../..".
Proof. reflexivity. Qed.
Example normpath_two : PosixPath.normpath "//a/.." = "//".
Proof. reflexivity. Qed.
Example abspath_rel : PosixPath.abspath "/home/u" "./a.c.p" = "/home/u/a.c.p".
Proof. reflexivity. Qed.
Example upper_arm : PyStr.upper "aarch64" = "AARCH64".
Proof. reflexivity. Qed.
Example pretty_status : pretty (-11) = "-11".
Proof. reflexivity. Qed.

Example utf8_valid_accepts :
  forallb PyStr.utf8_valid
    [EmptyString; "done"; PyStr.bytes [127]; PyStr.bytes [194; 128];
     PyStr.bytes [223; 191]; PyStr.bytes [226; 130; 172];
     PyStr.bytes [224; 160; 128]; PyStr.bytes [237; 159; 191];
     PyStr.bytes [238; 128; 128]; PyStr.bytes [239; 191; 191];
     PyStr.bytes [240; 144; 128; 128]; PyStr.bytes [243; 191; 191; 191];
     PyStr.bytes [244; 143; 191; 191; 0; 111; 107]]%nat = true.
Proof. reflexivity. Qed.
Example utf8_valid_rejects :
  existsb PyStr.utf8_valid
    [PyStr.bytes [255]; PyStr.bytes [128]; PyStr.bytes [194];
     PyStr.bytes [192; 128]; PyStr.bytes [193; 191]; PyStr.bytes [226; 130];
     PyStr.bytes [224; 128; 128]; PyStr.bytes [225; 127; 128];
     PyStr.bytes [237; 160; 128]; PyStr.bytes [240; 143; 128; 128];
     PyStr.bytes [241; 128; 128]; PyStr.bytes [244; 144; 128; 128];
     PyStr.bytes [244; 127; 128; 128]; PyStr.bytes [245; 128; 128; 128]]%nat
  = false.
Proof. reflexivity. Qed.
Example translate_newlines_mixed :
  PyStr.translate_newlines (PyStr.bytes [97; 13; 10; 98; 13; 99; 10]%nat)
  = PyStr.bytes [97; 10; 98; 10; 99; 10]%nat
  ∧ PyStr.translate_newlines (PyStr.bytes [13; 13; 10]%nat) = PyStr.bytes [10; 10]%nat
  ∧ PyStr.translate_newlines (PyStr.bytes [10; 13]%nat) = PyStr.bytes [10; 10]%nat.
Proof. by repeat split. Qed.
Example check_refuses :
  _execute_child_check ["gcc"; PyStr.bytes [97; 0]%nat] None
  = Some (ValueError "embedded null byte")
  ∧ _execute_child_check ["gcc"] (Some {[ "A=B" := "x" ]})
    = Some (ValueError "illegal environment variable name")
  ∧ _execute_child_check [PyStr.bytes [0]%nat] (Some {[ "A=B" := "x" ]})
    = Some (ValueError "illegal environment variable name")
  ∧ _execute_child_check ["gcc"] (Some {[ "A" := PyStr.bytes [0]%nat ]})
    = Some (ValueError "embedded null byte")
  ∧ _execute_child_check ["gcc"; "-c"] (Some {[ EmptyString := "x" ]}) = None.
Proof. repeat split; vm_compute; reflexivity. Qed.

Example init_demo :
  @__init__ Demo.ofrak_type Demo.backend Demo.processor (Demo.config Demo.ELF false true)
  = Ok (Demo.toolchain false true).
Proof. reflexivity. Qed.

(** ** Strings *)

Lemma append_nil_l (t : string) : EmptyString +:+ t = t.
Proof. reflexivity. Qed.

Lemma append_cons (a : ascii) (s t : string) :
  String a s +:+ t = String a (s +:+ t).
Proof. reflexivity. Qed.

Ltac str_simpl := rewrite ?append_cons, ?append_nil_l.
Ltac str_simpl_in H := rewrite ?append_cons, ?append_nil_l in H.

Lemma append_empty_r (s : string) : s +:+ EmptyString = s.
Proof. induction s as [|a s IH]; str_simpl; [reflexivity | by rewrite IH]. Qed.

Lemma append_assoc (s1 s2 s3 : string) : (s1 +:+ s2) +:+ s3 = s1 +:+ (s2 +:+ s3).
Proof. induction s1 as [|a s1 IH]; str_simpl; [reflexivity | by rewrite IH]. Qed.

Lemma startswith_spec (q p : string) :
  PyStr.startswith q p = true ↔ ∃ post, p = q +:+ post.
Proof.
  unfold PyStr.startswith. revert p.
  induction q as [|a q IH]; intros [|b p]; simpl; str_simpl.
  - split; [intros _; by exists EmptyString | done].
  - split; [intros _; by exists (String b p) | done].
  - split; [done | intros [post H]; str_simpl_in H; discriminate].
  - destruct (ascii_dec a b) as [->|Hne].
    + rewrite IH. split; intros [post H]; exists post; str_simpl_in H; str_simpl; congruence.
    + split; [done | intros [post H]; str_simpl_in H; congruence].
Qed.

Lemma contains_spec (q p : string) :
  PyStr.contains q p = true ↔ ∃ pre post, p = pre +:+ q +:+ post.
Proof.
  induction p as [|a p IH]; cbn [PyStr.contains].
  - rewrite orb_false_r, startswith_spec. split.
    + intros [post H]. by exists EmptyString, post.
    + intros [pre [post H]]. destruct pre; str_simpl_in H; [by exists post | discriminate].
  - rewrite orb_true_iff, startswith_spec, IH. split.
    + intros [[post H] | [pre [post H]]].
      * by exists EmptyString, post.
      * exists (String a pre), post. str_simpl. by rewrite H.
    + intros [pre [post H]]. destruct pre as [|b pre]; str_simpl_in H.
      * left. by exists post.
      * right. exists pre, post. congruence.
Qed.

Lemma contains_char_cons (c a : ascii) (p : string) :
  PyStr.contains (String c EmptyString) (String a p)
  = Ascii.eqb a c || PyStr.contains (String c EmptyString) p.
Proof.
  cbn [PyStr.contains]. unfold PyStr.startswith at 1. cbn [String.prefix].
  destruct (ascii_dec c a) as [->|Hne].
  - rewrite Ascii.eqb_refl. by destruct p.
  - apply Ascii.eqb_neq in Hne. rewrite Ascii.eqb_sym in Hne. by rewrite Hne.
Qed.

Lemma substring_full (p : string) : String.substring 0 (String.length p) p = p.
Proof. induction p as [|a p IH]; simpl; [reflexivity | by rewrite IH]. Qed.

(** What follows the last [c] of [p] holds no [c]. *)
Lemma rfind_tail (c : ascii) (p : string) :
  -1 ≤ PyStr.rfind c p < Z.of_nat (String.length p)
  ∧ PyStr.contains (String c EmptyString)
      (PyStr.slice_from (PyStr.rfind c p + 1) p) = false.
Proof.
  unfold PyStr.slice_from.
  induction p as [|a p [IHr IHc]].
  - simpl. split; [lia | reflexivity].
  - cbn [PyStr.rfind String.length].
    destruct (Z.leb_spec 0 (PyStr.rfind c p)) as [Hr|Hr].
    + split; [lia|].
      replace (Z.to_nat (PyStr.rfind c p + 1 + 1))
        with (S (Z.to_nat (PyStr.rfind c p + 1))) by lia.
      cbn [String.substring Nat.sub]. exact IHc.
    + assert (PyStr.rfind c p = -1) as Hm by lia.
      rewrite Hm in IHc. change (Z.to_nat (-1 + 1)) with 0%nat in IHc.
      rewrite Nat.sub_0_r, substring_full in IHc.
      destruct (Ascii.eqb a c) eqn:Hac.
      * split; [lia|]. change (Z.to_nat (0 + 1)) with 1%nat.
        cbn [String.substring Nat.sub]. by rewrite Nat.sub_0_r, substring_full.
      * split; [lia|]. change (Z.to_nat (-1 + 1)) with 0%nat.
        rewrite Nat.sub_0_r. cbn [String.substring]. rewrite substring_full.
        by rewrite contains_char_cons, Hac, IHc.
Qed.

Lemma split_tail_no_sep (p : string) :
  PyStr.contains "/" (snd (PosixPath.split p)) = false.
Proof. unfold PosixPath.split. cbn [snd]. apply (rfind_tail PosixPath.sep p). Qed.

Lemma no_sep_not_startswith (t sfx : string) :
  PyStr.contains "/" t = false →
  PyStr.startswith "/" sfx = false →
  PyStr.startswith "/" (t +:+ sfx) = false.
Proof.
  intros Ht Hs. destruct t as [|a t]; [exact Hs|].
  change "/" with (String PosixPath.sep EmptyString) in *.
  rewrite contains_char_cons in Ht. apply orb_false_iff in Ht as [Ha _].
  unfold PyStr.startswith. str_simpl. cbn [String.prefix].
  destruct (ascii_dec PosixPath.sep a) as [<-|Hne]; [|reflexivity].
  by rewrite Ascii.eqb_refl in Ha.
Qed.

(** [join(out_dir, basename + suffix)] is the plain concatenation with one
    separator between the two, none when [out_dir] is empty or ends in one. *)
Lemma join_basename (out_dir input sfx : string) :
  PyStr.startswith "/" sfx = false →
  PosixPath.join out_dir [snd (PosixPath.split input) +:+ sfx]
  = if String.eqb out_dir EmptyString || PyStr.endswith "/" out_dir
    then out_dir +:+ snd (PosixPath.split input) +:+ sfx
    else out_dir +:+ "/" +:+ snd (PosixPath.split input) +:+ sfx.
Proof.
  intros Hs. unfold PosixPath.join. cbn [fold_left]. unfold PosixPath.join_step.
  unfold PosixPath.sep_s.
  by rewrite (no_sep_not_startswith _ _ (split_tail_no_sep input) Hs).
Qed.

(** ** Normalised paths *)

Lemma split_not_nil (c : ascii) (p : string) : PyStr.split c p ≠ [].
Proof.
  induction p as [|a p IH]; cbn [PyStr.split]; [done|].
  destruct (Ascii.eqb a c); [done|]. by destruct (PyStr.split c p).
Qed.

Lemma split_app (c : ascii) (a b : string) :
  PyStr.split c (a +:+ String c b) = PyStr.split c a ++ PyStr.split c b.
Proof.
  induction a as [|x a IH]; str_simpl; cbn [PyStr.split].
  - by rewrite Ascii.eqb_refl.
  - destruct (Ascii.eqb x c); [by rewrite IH|].
    rewrite IH. pose proof (split_not_nil c a) as Hne.
    by destruct (PyStr.split c a).
Qed.

Lemma split_no_sep (c : ascii) (b : string) :
  PyStr.contains (String c EmptyString) b = false → PyStr.split c b = [b].
Proof.
  induction b as [|x b IH]; [done|].
  rewrite contains_char_cons. intros [Hx Hb]%orb_false_iff.
  cbn [PyStr.split]. by rewrite Hx, (IH Hb).
Qed.

Lemma split_elems_no_sep (c : ascii) (p : string) :
  Forall (λ x, PyStr.contains (String c EmptyString) x = false) (PyStr.split c p).
Proof.
  induction p as [|a p IH]; cbn [PyStr.split].
  - by repeat constructor.
  - destruct (Ascii.eqb a c) eqn:Hac; [by constructor|].
    pose proof (split_not_nil c p) as Hne.
    destruct (PyStr.split c p) as [|h t]; [done|].
    inversion IH as [|? ? Hh Ht]; subst. constructor; [|exact Ht].
    by rewrite contains_char_cons, Hac, Hh.
Qed.

Lemma endswith_app_nonempty (q : ascii) (p r : string) :
  r ≠ EmptyString →
  PyStr.endswith (String q EmptyString) (p +:+ r) = PyStr.endswith (String q EmptyString) r.
Proof.
  intros Hr. induction p as [|a p IH]; str_simpl; [done|].
  cbn [PyStr.endswith]. rewrite IH.
  replace (String.eqb (String q EmptyString) (String a (p +:+ r))) with false; [done|].
  symmetry. apply String.eqb_neq. intros [= _ H].
  destruct p; str_simpl_in H; [by subst | discriminate].
Qed.

Lemma no_sep_not_endswith (c : ascii) (x : string) :
  PyStr.contains (String c EmptyString) x = false →
  PyStr.endswith (String c EmptyString) x = false.
Proof.
  induction x as [|a x IH]; [done|].
  rewrite contains_char_cons. intros [Ha Hx]%orb_false_iff.
  cbn [PyStr.endswith]. rewrite (IH Hx), orb_false_r.
  apply String.eqb_neq. intros [= -> _]. by rewrite Ascii.eqb_refl in Ha.
Qed.

Lemma normpath_step_components k N comp :
  Forall PosixPath.is_component N → PyStr.contains "/" comp = false →
  Forall PosixPath.is_component (PosixPath.normpath_step k N comp).
Proof.
  intros HN Hc. unfold PosixPath.normpath_step.
  destruct (String.eqb_spec comp EmptyString) as [->|Hne]; [done|].
  cbn [orb]. destruct (String.eqb comp "."); [done|].
  destruct (_ || _ || _).
  - apply Forall_app. split; [done|]. by repeat constructor.
  - destruct (negb _); [|done].
    induction HN as [|x N Hx HN IH]; [constructor|].
    destruct N; cbn [removelast]; [constructor | constructor; [done|exact IH]].
Qed.

Lemma normpath_fold_components k comps N :
  Forall PosixPath.is_component N →
  Forall (λ x, PyStr.contains "/" x = false) comps →
  Forall PosixPath.is_component (fold_left (PosixPath.normpath_step k) comps N).
Proof.
  intros HN Hc. revert N HN.
  induction Hc as [|c comps Hc _ IH]; intros N HN; cbn [fold_left]; [done|].
  apply IH. by apply normpath_step_components.
Qed.

Lemma normpath_step_plain k N c :
  c ≠ EmptyString → c ≠ "." → c ≠ ".." →
  PosixPath.normpath_step k N c = N ++ [c].
Proof.
  intros H1 H2 H3. unfold PosixPath.normpath_step.
  apply String.eqb_neq in H1, H2, H3. by rewrite H1, H2, H3.
Qed.

Lemma join_snoc (N : list string) (c : string) :
  N ≠ [] → PyStr.join "/" (N ++ [c]) = PyStr.join "/" N +:+ "/" +:+ c.
Proof.
  induction N as [|x N IH]; [done|]. intros _.
  destruct N as [|y N]; [reflexivity|].
  change (PyStr.join "/" ((x :: y :: N) ++ [c]))
    with (x +:+ "/" +:+ PyStr.join "/" ((y :: N) ++ [c])).
  rewrite IH by done.
  change (PyStr.join "/" (x :: y :: N)) with (x +:+ "/" +:+ PyStr.join "/" (y :: N)).
  by rewrite !append_assoc.
Qed.

Lemma component_head (x : string) :
  PosixPath.is_component x → ∃ a x', x = String a x' ∧ a ≠ PosixPath.sep.
Proof.
  intros [Hne Hc]. destruct x as [|a x']; [done|]. exists a, x'. split; [done|].
  change "/" with (String PosixPath.sep EmptyString) in Hc.
  rewrite contains_char_cons in Hc. apply orb_false_iff in Hc as [Ha _].
  by apply Ascii.eqb_neq.
Qed.

Lemma join_components_head (N : list string) :
  Forall PosixPath.is_component N → N ≠ [] →
  ∃ a J, PyStr.join "/" N = String a J ∧ a ≠ PosixPath.sep.
Proof.
  intros HN Hne. destruct HN as [|x N Hx HN]; [done|].
  destruct (component_head x Hx) as (a & x' & -> & Ha).
  destruct N; [by exists a, x'|].
  cbn [PyStr.join]. str_simpl. by eexists a, _.
Qed.

Lemma join_components_not_endswith (N : list string) :
  Forall PosixPath.is_component N → N ≠ [] →
  PyStr.endswith "/" (PyStr.join "/" N) = false.
Proof.
  intros HN Hne. induction HN as [|x N Hx HN IH]; [done|].
  destruct N as [|y N].
  - cbn [PyStr.join]. apply (no_sep_not_endswith PosixPath.sep), Hx.
  - change (PyStr.join "/" (x :: y :: N)) with (x +:+ "/" +:+ PyStr.join "/" (y :: N)).
    destruct (join_components_head (y :: N) HN) as (a & J & HJ & _); [done|].
    rewrite <- append_assoc.
    rewrite (endswith_app_nonempty PosixPath.sep) by (rewrite HJ; done).
    by apply IH.
Qed.

Lemma component_not_startswith (c : string) :
  PosixPath.is_component c → PyStr.startswith "/" c = false.
Proof.
  intros Hc. destruct (component_head c Hc) as (a & c' & -> & Ha).
  unfold PyStr.startswith. cbn [String.prefix].
  by destruct (ascii_dec "/" a) as [<-|].
Qed.

Lemma initial_slashes_after (k : nat) (a : ascii) (Y : string) :
  k = 1%nat ∨ k = 2%nat → a ≠ PosixPath.sep →
  PosixPath.initial_slashes_of (PyStr.repeat PosixPath.sep k +:+ String a Y) = k.
Proof.
  intros [-> | ->] Ha; cbn [PyStr.repeat]; str_simpl;
    unfold PosixPath.initial_slashes_of, PyStr.startswith, PosixPath.sep_s, PosixPath.sep;
    cbn [String.prefix];
    repeat (destruct (ascii_dec _ _) as [?|?]; try done; cbn [andb negb]);
    by subst.
Qed.

Lemma isabs_initial_slashes (d : string) :
  PosixPath.isabs d = true →
  PosixPath.initial_slashes_of d = 1%nat ∨ PosixPath.initial_slashes_of d = 2%nat.
Proof.
  unfold PosixPath.isabs, PosixPath.initial_slashes_of. intros ->.
  destruct (_ && _); auto.
Qed.

Lemma append_not_empty_l (p q : string) : p ≠ EmptyString → p +:+ q ≠ EmptyString.
Proof. destruct p; [done|]. by str_simpl. Qed.

(** A normalised absolute directory joined with one more component is
    normalised. *)
Lemma normpath_join_component (d c : string) :
  PosixPath.isabs d = true → PosixPath.normpath d = d →
  PosixPath.is_component c → c ≠ "." → c ≠ ".." →
  PosixPath.normpath (PosixPath.join d [c]) = PosixPath.join d [c].
Proof.
  intros Habs Hnorm Hc Hdot Hdotdot.
  pose proof (isabs_initial_slashes d Habs) as Hk.
  pose proof (component_not_startswith c Hc) as Hcs.
  pose proof (component_head c Hc) as (a & c' & Hceq & Ha).
  destruct Hc as [Hcne Hcsep].
  assert (d ≠ EmptyString) as Hdne by (intros ->; discriminate).
  unfold PosixPath.normpath in Hnorm.
  rewrite (proj2 (String.eqb_neq _ _) Hdne) in Hnorm.
  remember (PosixPath.initial_slashes_of d) as k eqn:Hkeq.
  remember (fold_left (PosixPath.normpath_step k) (PyStr.split PosixPath.sep d) [])
    as N eqn:HNeq.
  assert (Forall PosixPath.is_component N) as HN.
  { subst N. apply normpath_fold_components; [constructor | apply split_elems_no_sep]. }
  assert (d = PyStr.repeat PosixPath.sep k +:+ PyStr.join PosixPath.sep_s N) as Hd.
  { destruct (String.eqb _ EmptyString) eqn:He in Hnorm; [|done].
    apply String.eqb_eq in He. destruct Hk as [Hk | Hk]; rewrite Hk in He; discriminate. }
  assert (PosixPath.join d [c]
          = if PyStr.endswith "/" d then d +:+ c else d +:+ "/" +:+ c) as Hjoin.
  { unfold PosixPath.join. cbn [fold_left]. unfold PosixPath.join_step, PosixPath.sep_s.
    by rewrite Hcs, (proj2 (String.eqb_neq _ _) Hdne). }
  assert (∀ x, x ≠ EmptyString →
               (if String.eqb x EmptyString then "." else x) = x) as Hor.
  { intros x Hx. by rewrite (proj2 (String.eqb_neq _ _) Hx). }
  rewrite Hjoin. destruct N as [|n N'].
  - (* the directory is the root: one or two slashes *)
    cbn [PyStr.join] in Hd. rewrite append_empty_r in Hd.
    assert (PyStr.endswith "/" d = true) as ->
      by (destruct Hk as [Hk | Hk]; rewrite Hd, Hk; reflexivity).
    unfold PosixPath.normpath.
    rewrite (proj2 (String.eqb_neq _ _) (append_not_empty_l d c Hdne)).
    assert (PosixPath.initial_slashes_of (d +:+ c) = k) as ->.
    { rewrite Hd, Hceq. by apply initial_slashes_after. }
    assert (fold_left (PosixPath.normpath_step k) (PyStr.split PosixPath.sep (d +:+ c)) []
            = [c]) as ->.
    { destruct Hk as [Hk | Hk]; rewrite Hd, Hk; cbn [PyStr.repeat]; str_simpl;
        cbn [PyStr.split]; rewrite ?Ascii.eqb_refl;
        rewrite (split_no_sep PosixPath.sep c Hcsep); cbn [fold_left];
        change (PosixPath.normpath_step _ [] EmptyString) with (@nil string);
        by rewrite normpath_step_plain. }
    cbn [PyStr.join]. rewrite <- Hd. apply Hor. by apply append_not_empty_l.
  - (* the directory ends in a component *)
    destruct (join_components_head (n :: N') HN) as (b & J & HJ & Hb); [done|].
    assert (PyStr.endswith "/" d = false) as ->.
    { rewrite Hd, (endswith_app_nonempty PosixPath.sep) by (unfold PosixPath.sep_s; by rewrite HJ).
      by apply join_components_not_endswith. }
    unfold PosixPath.normpath.
    rewrite (proj2 (String.eqb_neq _ _) (append_not_empty_l d _ Hdne)).
    assert (PosixPath.initial_slashes_of (d +:+ "/" +:+ c) = k) as ->.
    { rewrite Hd. unfold PosixPath.sep_s. rewrite HJ, append_assoc. str_simpl.
      by apply initial_slashes_after. }
    change (d +:+ "/" +:+ c) with (d +:+ String PosixPath.sep c).
    rewrite split_app, (split_no_sep PosixPath.sep c Hcsep), fold_left_app, <- HNeq.
    cbn [fold_left]. rewrite normpath_step_plain by done.
    unfold PosixPath.sep_s in *. rewrite join_snoc by done.
    rewrite <- (append_assoc (PyStr.repeat PosixPath.sep k)), <- Hd.
    apply (Hor (d +:+ "/" +:+ c)). by apply append_not_empty_l.
Qed.

Lemma contains_char_app (c : ascii) (p q : string) :
  PyStr.contains (String c EmptyString) (p +:+ q)
  = PyStr.contains (String c EmptyString) p || PyStr.contains (String c EmptyString) q.
Proof.
  induction p as [|a p IH]; str_simpl.
  - by destruct q.
  - by rewrite !contains_char_cons, IH, orb_assoc.
Qed.

Lemma startswith_app (q p r : string) :
  PyStr.startswith q p = true → PyStr.startswith q (p +:+ r) = true.
Proof.
  rewrite !startswith_spec. intros [post ->]. exists (post +:+ r).
  by rewrite append_assoc.
Qed.

Lemma isabs_join (d x : string) :
  PosixPath.isabs d = true → PosixPath.isabs (PosixPath.join d [x]) = true.
Proof.
  intros Hd. unfold PosixPath.join. cbn [fold_left]. unfold PosixPath.join_step.
  destruct (PyStr.startswith PosixPath.sep_s x) eqn:Hx; [exact Hx|].
  destruct (_ || _); by apply startswith_app.
Qed.

(** The base name of a path followed by [.p] or [.o] is a component, and
    neither [.] nor [..]. *)
Lemma basename_suffix_component (input sfx : string) :
  sfx = ".p" ∨ sfx = ".o" →
  PosixPath.is_component (snd (PosixPath.split input) +:+ sfx)
  ∧ snd (PosixPath.split input) +:+ sfx ≠ "."
  ∧ snd (PosixPath.split input) +:+ sfx ≠ "..".
Proof.
  intros Hs. pose proof (split_tail_no_sep input) as Hb.
  set (base := snd (PosixPath.split input)) in *.
  split; [split|split].
  - destruct base; str_simpl; [by destruct Hs as [-> | ->] | done].
  - change "/" with (String PosixPath.sep EmptyString) in *.
    rewrite contains_char_app, Hb. by destruct Hs as [-> | ->].
  - destruct base as [|a [|b base]]; str_simpl; destruct Hs as [-> | ->]; done.
  - destruct base as [|a [|b [|b' base]]]; str_simpl; destruct Hs as [-> | ->]; done.
Qed.

(** In an absolute, normalised output directory the output file is its own
    absolute path. *)
Lemma abspath_in_normal_dir (cwd out_dir input sfx : string) :
  sfx = ".p" ∨ sfx = ".o" →
  PosixPath.isabs out_dir = true → PosixPath.normpath out_dir = out_dir →
  PosixPath.abspath cwd (PosixPath.join out_dir [snd (PosixPath.split input) +:+ sfx])
  = PosixPath.join out_dir [snd (PosixPath.split input) +:+ sfx].
Proof.
  intros Hs Habs Hnorm.
  destruct (basename_suffix_component input sfx Hs) as (Hc & Hdot & Hdotdot).
  unfold PosixPath.abspath. rewrite (isabs_join _ _ Habs). cbn [negb].
  by apply normpath_join_component.
Qed.

(** ** The process runner *)

Ltac unfold_M :=
  unfold mbind, M_bind, mret, M_ret, raise, lift, try_except_CalledProcessError,
    logger_info, os_getcwd, dict_copy, dict_update, dict_read, subprocess_run in *.

(** The errors raised before a child exists are [ValueError]s, so the
    handler of [_execute_tool] never sees them. *)
Lemma check_is_ValueError args env err :
  _execute_child_check args env = Some err →
  err = ValueError "illegal environment variable name"
  ∨ err = ValueError "embedded null byte".
Proof.
  unfold _execute_child_check.
  destruct (match env with Some _ => _ | None => _ end); [intros [= <-]; by left|].
  destruct (_ || _); [intros [= <-]; by right | done].
Qed.

Section Runner.
Context `{OT : OfrakType} `{HO : !Host} `{BE : !Backend}.

Lemma fresh_not_allocated (w : World) (a : nat) :
  is_Some (heap w !! a) → fresh (dom (heap w)) ≠ a.
Proof.
  intros Ha Heq. apply elem_of_dom in Ha. rewrite <- Heq in Ha.
  by apply is_fresh in Ha.
Qed.

(** One run of [_execute_tool]: one call of [subprocess.run], with the
    arguments and the environment below; the answer follows what that call
    does; the working directory and every dictionary that existed before are
    left as they were. *)
Lemma _execute_tool_run tool_path flags in_files out_file env (w : World) :
  let args := _execute_tool_args tool_path flags in_files out_file in
  let e := handed_environment env w in
  ∃ w',
    _execute_tool tool_path flags in_files out_file env w
      = (answer_of args e (run_process (calls w) args e), w')
    ∧ calls w' = calls w ++ [{| inv_args := args; inv_env := e |}]
    ∧ cwd w' = cwd w
    ∧ ∀ a, is_Some (heap w !! a) → heap w' !! a = heap w !! a.
Proof.
  intros args e. subst e. unfold _execute_tool, handed_environment, answer_of.
  fold args. destruct w as [h c l cs]. unfold_M. unfold deref.
  destruct (env_truthy env) eqn:Henv; cbn -[fresh args _execute_child_check].
  - rewrite !lookup_insert_eq. cbn [default from_option id].
    destruct (_execute_child_check args
                (Some (default ∅ env ∪ default ∅ (h !! os_environ))))
      as [err|] eqn:Hcheck;
      [apply check_is_ValueError in Hcheck as [-> | ->]
      |destruct (run_process cs args
                    (Some (default ∅ env ∪ default ∅ (h !! os_environ))))
          as [rc raw|msg];
        [destruct (PyStr.utf8_valid raw); [destruct (bool_decide (rc = 0))|]|]];
      cbn [proc_stdout];
      (eexists; split; [reflexivity|]; cbn [calls cwd heap];
       split; [reflexivity|]; split; [reflexivity|];
       intros a Ha;
       apply (fresh_not_allocated {| heap := h; cwd := c; log := l; calls := cs |}) in Ha;
       cbn [heap] in Ha; by rewrite !lookup_insert_ne).
  - destruct (_execute_child_check args None) as [err|] eqn:Hcheck;
      [apply check_is_ValueError in Hcheck as [-> | ->]
      |destruct (run_process cs args None) as [rc raw|msg];
        [destruct (PyStr.utf8_valid raw); [destruct (bool_decide (rc = 0))|]|]];
      cbn [proc_stdout];
      (eexists; split; [reflexivity|]; cbn [calls cwd heap]; done).
Qed.

End Runner.

Lemma answer_of_exited args env rc raw :
  _execute_child_check args env = None →
  answer_of args env (Exited rc raw)
  = if PyStr.utf8_valid raw then
      if bool_decide (rc = 0) then Ok (PyStr.translate_newlines raw)
      else Raise (ValueError (nonzero_exit_message (PyStr.join " " args) rc))
    else Raise (UnicodeDecodeError "utf-8" raw).
Proof. intros Hc. unfold answer_of. by rewrite Hc. Qed.

Lemma answer_of_not_started args env msg :
  _execute_child_check args env = None →
  answer_of args env (NotStarted msg) = Raise (OSError msg).
Proof. intros Hc. unfold answer_of. by rewrite Hc. Qed.

Lemma answer_of_refused args env o err :
  _execute_child_check args env = Some err → answer_of args env o = Raise err.
Proof. intros Hc. unfold answer_of. by rewrite Hc. Qed.

(** C3, as stated, fails: a child that writes the byte [0xff] and exits with
    status 1 makes [_execute_tool] raise [UnicodeDecodeError], which holds
    neither the command line nor the status; and a child that writes it and
    exits with status 0 makes it raise the same error, not return. *)
Lemma exit_status_counterexample :
  run_process (Host := Bare.garbled 1) (calls Demo.world)
    (_execute_tool_args "gcc" ["-c"] ["a.c"] (Some "a.o")) None
  = Exited 1 (PyStr.bytes [255%nat])
  ∧ fst (_execute_tool (HO := Bare.garbled 1) "gcc" ["-c"] ["a.c"] (Some "a.o")
           None Demo.world)
    = Raise (UnicodeDecodeError "utf-8" (PyStr.bytes [255%nat]))
  ∧ fst (_execute_tool (HO := Bare.garbled 1) "gcc" ["-c"] ["a.c"] (Some "a.o")
           None Demo.world)
    ≠ Raise (ValueError (nonzero_exit_message "gcc -c -oa.o a.c" 1))
  ∧ run_process (Host := Bare.garbled 0) (calls Demo.world)
      (_execute_tool_args "gcc" ["-c"] ["a.c"] (Some "a.o")) None
    = Exited 0 (PyStr.bytes [255%nat])
  ∧ fst (_execute_tool (HO := Bare.garbled 0) "gcc" ["-c"] ["a.c"] (Some "a.o")
           None Demo.world)
    = Raise (UnicodeDecodeError "utf-8" (PyStr.bytes [255%nat])).
Proof.
  split; [reflexivity|]. split; [reflexivity|]. split; [discriminate|].
  split; reflexivity.
Qed.

(** C3, as the code has it: when the arguments pass the checks of
    [subprocess], the tool runs to its end and what it wrote to its standard
    output is well-formed UTF-8, then a non-zero exit status makes
    [_execute_tool] raise the error whose message holds the joined command
    line and that status, and an exit status of zero makes it return the
    output, decoded with line ends translated; output that is not
    well-formed UTF-8 makes it raise [UnicodeDecodeError] whatever the exit
    status; in every case [subprocess.run] was called exactly once. *)
Theorem execute_tool_exit_status `{HO : Host} tool_path flags in_files out_file env
    (w : World) (rc : Z) (raw : string) :
  let args := _execute_tool_args tool_path flags in_files out_file in
  let r := _execute_tool tool_path flags in_files out_file env w in
  _execute_child_check args (handed_environment env w) = None →
  run_process (calls w) args (handed_environment env w) = Exited rc raw →
  calls (snd r)
    = calls w ++ [{| inv_args := args; inv_env := handed_environment env w |}]
  ∧ (PyStr.utf8_valid raw = true → rc ≠ 0 →
     fst r = Raise (ValueError
               ("Command " +:+ dquote +:+ PyStr.join " " args +:+ dquote
                +:+ " returned non-zero exit status " +:+ pretty rc)))
  ∧ (PyStr.utf8_valid raw = true → rc = 0 →
     fst r = Ok (PyStr.translate_newlines raw))
  ∧ (PyStr.utf8_valid raw = false →
     fst r = Raise (UnicodeDecodeError "utf-8" raw)).
Proof.
  intros args r Hcheck Hrun. subst r.
  destruct (_execute_tool_run tool_path flags in_files out_file env w)
    as (w' & Heq & Hcalls & _).
  fold args in Heq, Hcalls.
  rewrite Heq, Hrun, (answer_of_exited _ _ _ _ Hcheck). cbn [fst snd].
  split; [exact Hcalls|]. split; [|split].
  - intros -> Hrc. by rewrite bool_decide_eq_false_2.
  - intros -> Hrc. by rewrite bool_decide_eq_true_2.
  - by intros ->.
Qed.

Lemma execute_tool_exit_status_witness :
  calls (snd (_execute_tool (HO := Demo.host 3) "gcc" ["-c"] ["a.c"] (Some "a.o")
                None Demo.world))
    = [{| inv_args := ["gcc"; "-c"; "-oa.o"; "a.c"]; inv_env := None |}]
  ∧ fst (_execute_tool (HO := Demo.host 3) "gcc" ["-c"] ["a.c"] (Some "a.o")
           None Demo.world)
    = Raise (ValueError ("Command " +:+ dquote +:+ "gcc -c -oa.o a.c" +:+ dquote
                         +:+ " returned non-zero exit status 3"))
  ∧ fst (_execute_tool (HO := Demo.host 0) "gcc" ["-c"] ["a.c"] (Some "a.o")
           None Demo.world)
    = Ok "done".
Proof.
  destruct (execute_tool_exit_status (HO := Demo.host 3) "gcc" ["-c"] ["a.c"]
              (Some "a.o") None Demo.world 3 "done" eq_refl eq_refl)
    as (Hc & Hne & _).
  destruct (execute_tool_exit_status (HO := Demo.host 0) "gcc" ["-c"] ["a.c"]
              (Some "a.o") None Demo.world 0 "done" eq_refl eq_refl)
    as (_ & _ & Hz & _).
  split; [exact Hc|]. split; [apply Hne; [reflexivity | discriminate]|].
  exact (Hz eq_refl eq_refl).
Defined.

(** C9: an overlay given to one invocation reaches that child on top of the
    ambient environment, the [os.environ] object keeps its contents, and the
    child of any later invocation sees only its own overlay (if any) on top
    of the same ambient environment. *)
Theorem environment_overlay_is_per_invocation `{HO : Host}
    tool_path flags in_files out_file (overlay : gmap string string) (w : World) :
  is_Some (heap w !! os_environ) →
  let ambient := deref w os_environ in
  let r := _execute_tool tool_path flags in_files out_file (Some overlay) w in
  (∃ i, calls (snd r) = calls w ++ [i]
        ∧ inv_args i = _execute_tool_args tool_path flags in_files out_file
        ∧ child_environment ambient i = overlay ∪ ambient)
  ∧ heap (snd r) !! os_environ = heap w !! os_environ
  ∧ ∀ tool_path' flags' in_files' out_file' env',
      let r' := _execute_tool tool_path' flags' in_files' out_file' env' (snd r) in
      ∃ i', calls (snd r') = calls (snd r) ++ [i']
            ∧ child_environment (deref (snd r) os_environ) i'
              = default ∅ env' ∪ ambient.
Proof.
  intros Hwf ambient r. subst r.
  destruct (_execute_tool_run tool_path flags in_files out_file (Some overlay) w)
    as (w' & Heq & Hcalls & _ & Hframe).
  rewrite Heq. cbn [snd].
  assert (deref w' os_environ = ambient) as Hamb.
  { unfold deref, ambient. by rewrite Hframe. }
  split; [|split].
  - eexists. split; [exact Hcalls|]. split; [reflexivity|].
    unfold child_environment, handed_environment, env_truthy. cbn [inv_env default].
    destruct (bool_decide_reflect (overlay = ∅)) as [->|Hne]; cbn [negb default].
    + by rewrite (left_id_L ∅ (∪)).
    + reflexivity.
  - by apply Hframe.
  - intros tool_path' flags' in_files' out_file' env'.
    destruct (_execute_tool_run tool_path' flags' in_files' out_file' env' w')
      as (w'' & Heq' & Hcalls' & _).
    rewrite Heq'. cbn [snd]. eexists. split; [exact Hcalls'|].
    unfold child_environment, handed_environment. cbn [inv_env].
    rewrite Hamb. destruct (env_truthy env') eqn:Henv; cbn [default].
    + reflexivity.
    + destruct env' as [e'|]; cbn [default].
      * unfold env_truthy in Henv. apply negb_false_iff, bool_decide_eq_true in Henv.
        subst e'. change (ambient = ∅ ∪ ambient). by rewrite (left_id_L ∅ (∪)).
      * change (ambient = ∅ ∪ ambient). by rewrite (left_id_L ∅ (∪)).
Qed.

Lemma environment_overlay_is_per_invocation_witness :
  is_Some (heap Demo.world !! os_environ)
  ∧ let w := Demo.world in
    let overlay : gmap string string := {[ "CC" := "clang" ]} in
    let r := _execute_tool (HO := Demo.host 0) "gcc" [] ["a.c"] (Some "a.o")
               (Some overlay) w in
    (∃ i, calls (snd r) = calls w ++ [i]
          ∧ inv_args i = _execute_tool_args "gcc" [] ["a.c"] (Some "a.o")
          ∧ child_environment (deref w os_environ) i = overlay ∪ deref w os_environ)
    ∧ heap (snd r) !! os_environ = heap w !! os_environ
    ∧ ∀ tool_path' flags' in_files' out_file' env',
        ∃ i', calls (snd (_execute_tool (HO := Demo.host 0) tool_path' flags'
                            in_files' out_file' env' (snd r)))
                = calls (snd r) ++ [i']
              ∧ child_environment (deref (snd r) os_environ) i'
                = default ∅ env' ∪ deref w os_environ.
Proof.
  assert (is_Some (heap Demo.world !! os_environ)) as Hwf
    by (eexists; apply lookup_singleton_eq).
  split; [exact Hwf|].
  exact (environment_overlay_is_per_invocation (HO := Demo.host 0)
           "gcc" [] ["a.c"] (Some "a.o") {[ "CC" := "clang" ]} Demo.world Hwf).
Defined.

(** ** The pipeline stages *)

Section Stages.
Context `{OT : OfrakType} `{HO : !Host} `{BE : !Backend}.

(** What a stage answers once its child has ended. *)
Lemma os_path_abspath_run (path : string) (w : World) :
  os_path_abspath path w = (Ok (PosixPath.abspath (cwd w) path), w).
Proof.
  unfold os_path_abspath, PosixPath.abspath.
  destruct (PosixPath.isabs path); cbn [negb]; reflexivity.
Qed.

(** The common tail of [preprocess], [compile] and [assemble]: run the tool
    on one input with its include flags, then make the output path absolute. *)
Lemma run_then_abspath tool flags in_files out_file (w : World) :
  let args := [tool] ++ flags ++ ["-o" +:+ out_file] ++ in_files in
  ∃ w',
    (_ ← _execute_tool tool flags in_files (Some out_file) None;
     os_path_abspath out_file) w
      = (match answer_of args None (run_process (calls w) args None) with
         | Ok _ => Ok (PosixPath.abspath (cwd w) out_file)
         | Raise e => Raise e
         end, w')
    ∧ calls w' = calls w ++ [{| inv_args := args; inv_env := None |}].
Proof.
  intros args.
  destruct (_execute_tool_run tool flags in_files (Some out_file) None w)
    as (w' & Heq & Hcalls & Hcwd & _).
  assert (_execute_tool_args tool flags in_files (Some out_file) = args) as Hargs.
  { unfold _execute_tool_args, args. cbn [app]. by rewrite <- app_assoc. }
  rewrite Hargs in Heq, Hcalls. change (handed_environment None w) with (@None (gmap string string)) in *.
  exists w'. split; [|exact Hcalls].
  unfold mbind, M_bind. rewrite Heq.
  destruct (answer_of args None _); [|reflexivity].
  by rewrite os_path_abspath_run, Hcwd.
Qed.

Lemma bind_lift_Ok {A B} (r : Result A) (a : A) (k : A → M B) (w : World) :
  r = Ok a → (x ← lift r; k x) w = k a w.
Proof. by intros ->. Qed.

(** A stage as a whole: look the tool up, run it, answer the absolute path. *)
Lemma stage_run (path : Result string) flags in_files out_file (w : World) :
  let stage :=
    (tool ← lift path;
     _ ← _execute_tool tool flags in_files (Some out_file) None;
     os_path_abspath out_file) in
  (∀ p, fst (stage w) = Ok p → p = PosixPath.abspath (cwd w) out_file)
  ∧ ∀ tool, path = Ok tool →
      let args := [tool] ++ flags ++ ["-o" +:+ out_file] ++ in_files in
      calls (snd (stage w)) = calls w ++ [{| inv_args := args; inv_env := None |}]
      ∧ ∀ stdout, _execute_child_check args None = None →
          run_process (calls w) args None = Exited 0 stdout →
          PyStr.utf8_valid stdout = true →
          fst (stage w) = Ok (PosixPath.abspath (cwd w) out_file).
Proof.
  intros stage. subst stage. split.
  - intros p. destruct path as [tool|e]; [|discriminate].
    rewrite (bind_lift_Ok _ tool) by reflexivity.
    destruct (run_then_abspath tool flags in_files out_file w) as (w' & -> & _).
    cbn [fst]. destruct (answer_of _ _ _); [congruence | discriminate].
  - intros tool -> args. rewrite (bind_lift_Ok _ tool) by reflexivity.
    destruct (run_then_abspath tool flags in_files out_file w) as (w' & -> & Hcalls).
    cbn [fst snd]. split; [exact Hcalls|].
    intros stdout Hcheck Hrun Hvalid. fold args.
    by rewrite Hrun, (answer_of_exited _ _ _ _ Hcheck), Hvalid.
Qed.

Lemma link_run (self : Toolchain) o_files exec_path script (w : World) tool :
  get_repository_config name "LINKER" = Ok tool →
  let args := _execute_tool_args tool (link_flags self exec_path script) o_files
                (Some exec_path) in
  ∃ w',
    link self o_files exec_path script w
      = (match answer_of args None (run_process (calls w) args None) with
         | Ok _ => Ok tt
         | Raise e => Raise e
         end, w')
    ∧ calls w' = calls w ++ [{| inv_args := args; inv_env := None |}].
Proof.
  intros Htool args. unfold link, _linker_path.
  rewrite (bind_lift_Ok _ tool) by exact Htool.
  destruct (_execute_tool_run tool (link_flags self exec_path script) o_files
              (Some exec_path) None w) as (w' & Heq & Hcalls & _).
  fold args in Heq, Hcalls.
  change (handed_environment None w) with (@None (gmap string string)) in *.
  exists w'. split; [|exact Hcalls].
  unfold mbind, M_bind. rewrite Heq. by destruct (answer_of _ _ _).
Qed.

End Stages.

(** C2, as the code has it: every stage calls [subprocess.run] once, with
    an argument vector that is the tool path, the fixed flags of the stage, the output flag,
    and then the inputs; for [preprocess], [compile] and [assemble] the
    inputs are the source file followed by one [-I] flag per header
    directory, for [link] the fixed flags are followed by the script flag
    and the map-file flags when they apply, and the inputs are the object
    files. *)
Theorem stage_argument_vectors `{OT : OfrakType} `{HO : !Host} `{BE : !Backend}
    (self : Toolchain) (w : World) (tool : string) :
  (∀ source_file header_dirs out_dir,
     get_repository_config name "PREPROCESSOR" = Ok tool →
     calls (snd (preprocess self source_file header_dirs out_dir w))
     = calls w ++
       [{| inv_args :=
             [tool] ++ _preprocessor_flags self
             ++ ["-o" +:+ PosixPath.join out_dir
                            [snd (PosixPath.split source_file) +:+ ".p"]]
             ++ [source_file] ++ include_flags header_dirs;
           inv_env := None |}])
  ∧ (∀ c_file header_dirs out_dir,
     get_repository_config name "COMPILER" = Ok tool →
     calls (snd (compile self c_file header_dirs out_dir w))
     = calls w ++
       [{| inv_args :=
             [tool] ++ _compiler_flags self
             ++ ["-o" +:+ PosixPath.join out_dir
                            [snd (PosixPath.split c_file) +:+ ".o"]]
             ++ [c_file] ++ include_flags header_dirs;
           inv_env := None |}])
  ∧ (∀ asm_file header_dirs out_dir,
     _assembler_path self w = (Ok tool, w) →
     calls (snd (assemble self asm_file header_dirs out_dir w))
     = calls w ++
       [{| inv_args :=
             [tool] ++ _assembler_flags self
             ++ ["-o" +:+ PosixPath.join out_dir
                            [snd (PosixPath.split asm_file) +:+ ".o"]]
             ++ [asm_file] ++ include_flags header_dirs;
           inv_env := None |}])
  ∧ (∀ o_files exec_path script,
     get_repository_config name "LINKER" = Ok tool →
     calls (snd (link self o_files exec_path script w))
     = calls w ++
       [{| inv_args :=
             [tool] ++ _linker_flags self
             ++ match script with
                | Some s => [_linker_script_flag +:+ s]
                | None => []
                end
             ++ (if ToolchainConfig.create_map_files (_config self)
                 then _get_linker_map_flag exec_path else [])
             ++ ["-o" +:+ exec_path] ++ o_files;
           inv_env := None |}]).
Proof.
  repeat split.
  - intros source_file header_dirs out_dir Htool.
    unfold preprocess, _preprocessor_path.
    by apply (stage_run (get_repository_config name "PREPROCESSOR")).
  - intros c_file header_dirs out_dir Htool.
    unfold compile, _compiler_path.
    by apply (stage_run (get_repository_config name "COMPILER")).
  - intros asm_file header_dirs out_dir Htool.
    unfold assemble. unfold _assembler_path in *. unfold lift in Htool at 1.
    injection Htool as Htool.
    by apply (stage_run (get_repository_config "ASM" _)).
  - intros o_files exec_path script Htool.
    destruct (link_run self o_files exec_path script w tool Htool)
      as (w' & -> & Hcalls).
    cbn [snd]. rewrite Hcalls. do 3 f_equal.
    unfold _execute_tool_args, link_flags.
    destruct script, (ToolchainConfig.create_map_files (_config self));
      cbn [app]; rewrite <- ?app_assoc; reflexivity.
Qed.

Lemma stage_argument_vectors_witness :
  let t := Demo.toolchain false true in
  calls (snd (@preprocess Demo.ofrak_type (Demo.host 0) Demo.backend t
                "src/a.c" ["inc"; "/usr/include"] "out" Demo.world))
  = [{| inv_args := ["cpp"; "-oout/a.c.p"; "src/a.c"; "-Iinc"; "-I/usr/include"];
        inv_env := None |}]
  ∧ calls (snd (@compile Demo.ofrak_type (Demo.host 0) Demo.backend t
                  "src/a.c" ["inc"] "out/" Demo.world))
    = [{| inv_args := ["gcc"; "-oout/a.c.o"; "src/a.c"; "-Iinc"]; inv_env := None |}]
  ∧ calls (snd (@assemble Demo.ofrak_type (Demo.host 0) t
                  "b.S" [] "." Demo.world))
    = [{| inv_args := ["as"; "-o./b.S.o"; "b.S"]; inv_env := None |}]
  ∧ calls (snd (@link Demo.ofrak_type (Demo.host 0) Demo.backend t
                  ["a.c.o"; "b.S.o"] "patch" (Some "patch.ld") Demo.world))
    = [{| inv_args := ["ld"; "-Tpatch.ld"; "-Map"; "patch.map"; "-opatch";
                       "a.c.o"; "b.S.o"];
          inv_env := None |}].
Proof.
  intros t. split; [|split; [|split]].
  - exact (proj1 (@stage_argument_vectors Demo.ofrak_type (Demo.host 0)
                    Demo.backend t Demo.world "cpp")
             "src/a.c" ["inc"; "/usr/include"] "out" eq_refl).
  - exact (proj1 (proj2 (@stage_argument_vectors Demo.ofrak_type (Demo.host 0)
                           Demo.backend t Demo.world "gcc"))
             "src/a.c" ["inc"] "out/" eq_refl).
  - exact (proj1 (proj2 (proj2 (@stage_argument_vectors Demo.ofrak_type (Demo.host 0)
                                  Demo.backend t Demo.world "as")))
             "b.S" [] "." eq_refl).
  - exact (proj2 (proj2 (proj2 (@stage_argument_vectors Demo.ofrak_type (Demo.host 0)
                                  Demo.backend t Demo.world "ld")))
             ["a.c.o"; "b.S.o"] "patch" (Some "patch.ld") eq_refl).
Defined.

(** C2, as stated, fails: [preprocess] puts the output flag before the source
    file and the [-I] flags after it. *)
Lemma argument_order_counterexample :
  calls (snd (@preprocess Demo.ofrak_type (Demo.host 0) Demo.backend
                (Demo.toolchain false false) "a.c" ["inc"] "out" Demo.world))
  = [{| inv_args := ["cpp"; "-oout/a.c.p"; "a.c"; "-Iinc"]; inv_env := None |}]
  ∧ argv_as_specified "cpp" [] ["inc"] ["a.c"] (Some "out/a.c.p")
    = ["cpp"; "-Iinc"; "a.c"; "-oout/a.c.p"]
  ∧ ["cpp"; "-oout/a.c.p"; "a.c"; "-Iinc"]
    ≠ argv_as_specified "cpp" [] ["inc"] ["a.c"] (Some "out/a.c.p").
Proof. split; [reflexivity|]. split; [reflexivity | discriminate]. Qed.

(** C7: [link] splices the map-file flags of the back end, computed from the
    executable path, into the argument vector exactly once when
    [create_map_files] is set, between the other flags and the output flag;
    when it is not set the argument vector is the same without them. *)
Theorem link_map_file_flag `{OT : OfrakType} `{HO : !Host} `{BE : !Backend}
    (self : Toolchain) o_files exec_path script (w : World) (tool : string) :
  get_repository_config name "LINKER" = Ok tool →
  let before :=
    [tool] ++ _linker_flags self
    ++ match script with Some s => [_linker_script_flag +:+ s] | None => [] end in
  let after := ["-o" +:+ exec_path] ++ o_files in
  ∃ i, calls (snd (link self o_files exec_path script w)) = calls w ++ [i]
       ∧ (ToolchainConfig.create_map_files (_config self) = true →
          inv_args i = before ++ _get_linker_map_flag exec_path ++ after)
       ∧ (ToolchainConfig.create_map_files (_config self) = false →
          inv_args i = before ++ after).
Proof.
  intros Htool before after.
  destruct (link_run self o_files exec_path script w tool Htool)
    as (w' & -> & Hcalls).
  eexists. split; [exact Hcalls|]. cbn [snd inv_args].
  unfold _execute_tool_args, link_flags, before, after.
  split; intros ->; destruct script; cbn [app]; rewrite <- ?app_assoc; reflexivity.
Qed.

Lemma link_map_file_flag_witness :
  ∃ i, calls (snd (@link Demo.ofrak_type (Demo.host 0) Demo.backend
                     (Demo.toolchain false true) ["a.o"] "patch" None Demo.world))
       = calls Demo.world ++ [i]
       ∧ inv_args i = ["ld"] ++ ["-Map"; "patch.map"] ++ ["-opatch"; "a.o"].
Proof.
  destruct (@link_map_file_flag Demo.ofrak_type (Demo.host 0) Demo.backend
              (Demo.toolchain false true) ["a.o"] "patch" None Demo.world "ld" eq_refl)
    as (i & Hc & Ht & _).
  exists i. split; [exact Hc | exact (Ht eq_refl)].
Defined.

(** C1, as stated, fails: with the default output directory the path that
    [preprocess] returns is absolute, while [out_dir/basename + ".p"] is
    relative. *)
Lemma returned_path_counterexample :
  fst (@preprocess Demo.ofrak_type (Demo.host 0) Demo.backend
         (Demo.toolchain false false) "src/a.c" [] "." Demo.world)
  = Ok "/home/u/a.c.p"
  ∧ PosixPath.join "." [snd (PosixPath.split "src/a.c") +:+ ".p"] = "./a.c.p"
  ∧ "/home/u/a.c.p" ≠ "./a.c.p".
Proof. split; [reflexivity|]. split; [reflexivity | discriminate]. Qed.

(** C1, as the code has it: whenever [preprocess], [compile] or [assemble]
    returns, the path it returns is [os.path.abspath] of
    [out_dir/basename(input) + suffix], with suffix [.p], [.o] and [.o]; each
    of them returns when its tool is configured, its arguments pass the
    checks of [subprocess], and the tool writes well-formed UTF-8 and exits
    with status zero;
    [out_dir/basename(input) + suffix] is [out_dir], one separator unless
    [out_dir] is empty or ends in one, the base name and the suffix; and the
    returned path is [out_dir/basename(input) + suffix] itself when [out_dir]
    is absolute and normalised. *)
Theorem stage_output_paths `{OT : OfrakType} `{HO : !Host} `{BE : !Backend}
    (self : Toolchain) (input : string) (header_dirs : list string)
    (out_dir : string) (w : World) :
  let base := snd (PosixPath.split input) in
  let out_file sfx := PosixPath.join out_dir [base +:+ sfx] in
  let returned sfx := PosixPath.abspath (cwd w) (out_file sfx) in
  let inputs := [input] ++ include_flags header_dirs in
  ((∀ p, fst (preprocess self input header_dirs out_dir w) = Ok p → p = returned ".p")
   ∧ (∀ p, fst (compile self input header_dirs out_dir w) = Ok p → p = returned ".o")
   ∧ (∀ p, fst (assemble self input header_dirs out_dir w) = Ok p → p = returned ".o"))
  ∧ (∀ tool stdout,
       get_repository_config name "PREPROCESSOR" = Ok tool →
       _execute_child_check
         ([tool] ++ _preprocessor_flags self ++ ["-o" +:+ out_file ".p"] ++ inputs) None = None →
       run_process (calls w)
         ([tool] ++ _preprocessor_flags self ++ ["-o" +:+ out_file ".p"] ++ inputs)
         None = Exited 0 stdout →
       PyStr.utf8_valid stdout = true →
       fst (preprocess self input header_dirs out_dir w) = Ok (returned ".p"))
  ∧ (∀ tool stdout,
       get_repository_config name "COMPILER" = Ok tool →
       _execute_child_check
         ([tool] ++ _compiler_flags self ++ ["-o" +:+ out_file ".o"] ++ inputs) None = None →
       run_process (calls w)
         ([tool] ++ _compiler_flags self ++ ["-o" +:+ out_file ".o"] ++ inputs)
         None = Exited 0 stdout →
       PyStr.utf8_valid stdout = true →
       fst (compile self input header_dirs out_dir w) = Ok (returned ".o"))
  ∧ (∀ tool stdout,
       _assembler_path self w = (Ok tool, w) →
       _execute_child_check
         ([tool] ++ _assembler_flags self ++ ["-o" +:+ out_file ".o"] ++ inputs) None = None →
       run_process (calls w)
         ([tool] ++ _assembler_flags self ++ ["-o" +:+ out_file ".o"] ++ inputs)
         None = Exited 0 stdout →
       PyStr.utf8_valid stdout = true →
       fst (assemble self input header_dirs out_dir w) = Ok (returned ".o"))
  ∧ (∀ sfx, sfx = ".p" ∨ sfx = ".o" →
       out_file sfx
       = if String.eqb out_dir EmptyString || PyStr.endswith "/" out_dir
         then out_dir +:+ base +:+ sfx
         else out_dir +:+ "/" +:+ base +:+ sfx)
  ∧ (∀ sfx, sfx = ".p" ∨ sfx = ".o" →
       PosixPath.isabs out_dir = true → PosixPath.normpath out_dir = out_dir →
       returned sfx = out_file sfx).
Proof.
  intros base out_file returned inputs.
  split; [split; [|split]|split; [|split; [|split; [|split]]]].
  - apply (stage_run (get_repository_config name "PREPROCESSOR")).
  - apply (stage_run (get_repository_config name "COMPILER")).
  - apply (stage_run (get_repository_config "ASM" _)).
  - intros tool stdout Htool Hcheck Hrun Hvalid.
    by apply (stage_run (get_repository_config name "PREPROCESSOR")) with tool stdout.
  - intros tool stdout Htool Hcheck Hrun Hvalid.
    by apply (stage_run (get_repository_config name "COMPILER")) with tool stdout.
  - intros tool stdout Htool Hcheck Hrun Hvalid.
    unfold _assembler_path in Htool. unfold lift in Htool at 1.
    injection Htool as Htool.
    by apply (stage_run (get_repository_config "ASM" _)) with tool stdout.
  - intros sfx [-> | ->]; by apply join_basename.
  - intros sfx Hs Habs Hnorm. by apply abspath_in_normal_dir.
Qed.

Lemma stage_output_paths_witness :
  let t := Demo.toolchain false false in
  fst (@preprocess Demo.ofrak_type (Demo.host 0) Demo.backend t
         "src/a.c" ["inc"] "." Demo.world) = Ok "/home/u/a.c.p"
  ∧ fst (@compile Demo.ofrak_type (Demo.host 0) Demo.backend t
           "src/a.c" ["inc"] "../build//x" Demo.world) = Ok "/home/build/x/a.c.o"
  ∧ fst (@assemble Demo.ofrak_type (Demo.host 0) t
           "src/b.S" ["inc"] "/tmp/out/" Demo.world) = Ok "/tmp/out/b.S.o"
  ∧ PosixPath.join "../build//x" [snd (PosixPath.split "src/a.c") +:+ ".o"]
    = "../build//x" +:+ "/" +:+ "a.c" +:+ ".o"
  ∧ PosixPath.abspath "/home/u"
      (PosixPath.join "/tmp/out" [snd (PosixPath.split "src/b.S") +:+ ".o"])
    = PosixPath.join "/tmp/out" [snd (PosixPath.split "src/b.S") +:+ ".o"].
Proof.
  intros t.
  pose proof (@stage_output_paths Demo.ofrak_type (Demo.host 0) Demo.backend t
                "src/a.c" ["inc"] "." Demo.world) as (_ & Hp & _).
  pose proof (@stage_output_paths Demo.ofrak_type (Demo.host 0) Demo.backend t
                "src/a.c" ["inc"] "../build//x" Demo.world) as (_ & _ & Hc & _ & Hj & _).
  pose proof (@stage_output_paths Demo.ofrak_type (Demo.host 0) Demo.backend t
                "src/b.S" ["inc"] "/tmp/out/" Demo.world) as (_ & _ & _ & Ha & _).
  pose proof (@stage_output_paths Demo.ofrak_type (Demo.host 0) Demo.backend t
                "src/b.S" ["inc"] "/tmp/out" Demo.world) as (_ & _ & _ & _ & _ & Hn).
  split; [|split; [|split; [|split]]].
  - exact (Hp "cpp" "done" eq_refl eq_refl eq_refl eq_refl).
  - exact (Hc "gcc" "done" eq_refl eq_refl eq_refl eq_refl).
  - exact (Ha "as" "done" eq_refl eq_refl eq_refl eq_refl).
  - exact (Hj ".o" (or_intror eq_refl)).
  - exact (Hn ".o" (or_intror eq_refl) eq_refl eq_refl).
Defined.

(** ** Construction *)

Section Construction.
Context `{OT : OfrakType} `{BE : !Backend}.

Lemma scan_None (parsers : list AbstractBinaryFileParser.t) (fmt : BinFileType.t) :
  __init___scan parsers fmt = None
  ↔ ∀ p, p ∈ parsers → py_is (AbstractBinaryFileParser.file_format p) fmt = false.
Proof.
  induction parsers as [|q rest IH]; cbn [__init___scan].
  - split; [intros _ p Hp; by apply elem_of_nil in Hp | done].
  - destruct (py_is (AbstractBinaryFileParser.file_format q) fmt) eqn:Hq.
    + split; [done|]. intros H. specialize (H q (list_elem_of_here _ _)). congruence.
    + rewrite IH. split.
      * intros H p Hp. apply elem_of_cons in Hp as [-> | Hp]; [exact Hq | by apply H].
      * intros H p Hp. apply H. by apply list_elem_of_further.
Qed.

(** The scan keeps the first parser of the list that has the format. *)
Lemma scan_Some (parsers : list AbstractBinaryFileParser.t) (fmt : BinFileType.t)
    (parser : AbstractBinaryFileParser.t) :
  __init___scan parsers fmt = Some parser
  ↔ ∃ before after,
      parsers = before ++ parser :: after
      ∧ (∀ q, q ∈ before → py_is (AbstractBinaryFileParser.file_format q) fmt = false)
      ∧ py_is (AbstractBinaryFileParser.file_format parser) fmt = true.
Proof.
  induction parsers as [|q rest IH]; cbn [__init___scan].
  - split; [done|]. intros (before & after & H & _). by destruct before.
  - destruct (py_is (AbstractBinaryFileParser.file_format q) fmt) eqn:Hq.
    + split.
      * intros [= <-]. exists [], rest. split; [done|].
        split; [intros p Hp; by apply elem_of_nil in Hp | exact Hq].
      * intros (before & after & H & Hb & Hp). destruct before as [|b before].
        -- cbn [app] in H. congruence.
        -- cbn [app] in H. injection H as <- _.
           specialize (Hb q (list_elem_of_here _ _)). congruence.
    + rewrite IH. split.
      * intros (before & after & -> & Hb & Hp). exists (q :: before), after.
        split; [done|]. split; [|exact Hp].
        intros p Hin. apply elem_of_cons in Hin as [-> | Hin]; [exact Hq | by apply Hb].
      * intros (before & after & H & Hb & Hp). destruct before as [|b before].
        -- cbn [app] in H. injection H as -> _. congruence.
        -- cbn [app] in H. injection H as <- ->. exists before, after.
           split; [done|]. split; [|exact Hp].
           intros p Hin. apply Hb. by apply list_elem_of_further.
Qed.

(** What [__init__] does once the scan has kept a parser. *)
Lemma __init___bound processor toolchain_config parser :
  __init___scan binary_file_parsers (ToolchainConfig.file_format toolchain_config)
    = Some parser →
  (∀ t, __init__ processor toolchain_config = Ok t →
        _parser t = parser ∧ _config t = toolchain_config
        ∧ _linker_keep_list t = [".data"; ".rodata"; ".text"; ".rel"])
  ∧ (∀ a c, _get_assembler_target toolchain_config processor = Ok a →
            _get_compiler_target toolchain_config processor = Ok c →
            ∃ t, __init__ processor toolchain_config = Ok t ∧ _parser t = parser)
  ∧ (∀ e, __init__ processor toolchain_config = Raise e →
          _get_assembler_target toolchain_config processor = Raise e
          ∨ _get_compiler_target toolchain_config processor = Raise e).
Proof.
  intros Hscan. unfold __init__. rewrite Hscan.
  destruct (_get_assembler_target toolchain_config processor) as [a|ea];
    [destruct (_get_compiler_target toolchain_config processor) as [c|ec]|].
  - split; [by intros t [= <-]|]. split; [|done].
    intros a' c' _ _. eexists. by split.
  - split; [done|]. split; [done|]. intros e [= <-]. by right.
  - split; [done|]. split; [done|]. intros e [= <-]. by left.
Qed.

Lemma __init___unbound processor toolchain_config :
  __init___scan binary_file_parsers (ToolchainConfig.file_format toolchain_config)
    = None →
  __init__ processor toolchain_config
  = Raise (ValueError ("No binary file parser found for format "
                       +:+ BinFileType.name (ToolchainConfig.file_format toolchain_config)
                       +:+ "!")).
Proof. intros Hscan. unfold __init__. by rewrite Hscan. Qed.

End Construction.

(** C4: when no registered parser has the configured format, construction
    fails with the no-parser error; when some registered parser has it,
    construction binds one parser of the list that has the format: every
    driver it returns holds that parser, it returns one when the two target
    hooks succeed, and it can only fail with the error of a hook. *)
Theorem construction_binds_one_parser `{OT : OfrakType} `{BE : !Backend}
    (processor : ArchInfo.t) (toolchain_config : ToolchainConfig.t) :
  let fmt := ToolchainConfig.file_format toolchain_config in
  ((∀ p, p ∈ binary_file_parsers →
         py_is (AbstractBinaryFileParser.file_format p) fmt = false) →
   __init__ processor toolchain_config
   = Raise (ValueError ("No binary file parser found for format "
                        +:+ BinFileType.name fmt +:+ "!")))
  ∧ ((∃ p, p ∈ binary_file_parsers
           ∧ py_is (AbstractBinaryFileParser.file_format p) fmt = true) →
     ∃ parser,
       parser ∈ binary_file_parsers
       ∧ py_is (AbstractBinaryFileParser.file_format parser) fmt = true
       ∧ (∀ t, __init__ processor toolchain_config = Ok t → _parser t = parser)
       ∧ (∀ a c, _get_assembler_target toolchain_config processor = Ok a →
                 _get_compiler_target toolchain_config processor = Ok c →
                 ∃ t, __init__ processor toolchain_config = Ok t ∧ _parser t = parser)
       ∧ (∀ e, __init__ processor toolchain_config = Raise e →
               _get_assembler_target toolchain_config processor = Raise e
               ∨ _get_compiler_target toolchain_config processor = Raise e)).
Proof.
  intros fmt. split.
  - intros Hnone. apply __init___unbound. by apply scan_None.
  - intros (p & Hin & Hp).
    destruct (__init___scan binary_file_parsers fmt) as [parser|] eqn:Hscan.
    + pose proof (proj1 (scan_Some _ _ _) Hscan) as (before & after & Hl & _ & Hm).
      destruct (__init___bound processor toolchain_config parser Hscan)
        as (Hok & Hret & Herr).
      exists parser.
      split; [rewrite Hl; apply elem_of_app; right; apply list_elem_of_here|].
      split; [exact Hm|].
      split; [intros t Ht; exact (proj1 (Hok t Ht))|]. by split.
    + rewrite scan_None in Hscan. specialize (Hscan p Hin). congruence.
Qed.

Lemma construction_binds_one_parser_witness :
  @__init__ Demo.ofrak_type Demo.backend Demo.processor (Demo.config Demo.ELF_twin false false)
  = Raise (ValueError "No binary file parser found for format ELF!")
  ∧ ∃ parser t,
      parser ∈ @binary_file_parsers Demo.ofrak_type Demo.backend
      ∧ @__init__ Demo.ofrak_type Demo.backend Demo.processor
          (Demo.config Demo.COFF false false) = Ok t
      ∧ _parser t = parser.
Proof.
  split.
  - apply (proj1 (@construction_binds_one_parser Demo.ofrak_type Demo.backend
                    Demo.processor (Demo.config Demo.ELF_twin false false))).
    intros p Hp. cbn in Hp. set_unfold in Hp.
    destruct Hp as [-> | [-> | [-> | []]]]; reflexivity.
  - destruct (proj2 (@construction_binds_one_parser Demo.ofrak_type Demo.backend
                       Demo.processor (Demo.config Demo.COFF false false)))
      as (parser & Hin & _ & _ & Hret & _).
    + exists Demo.coff_parser. split; [apply list_elem_of_here | reflexivity].
    + destruct (Hret "armv7-a" None eq_refl eq_refl) as (t & Ht & Hp).
      by exists parser, t.
Defined.

(** C10: the parser that construction binds is the first one in list order
    whose format is the very object the configuration holds, whatever comes
    after it; and a configured format that is not the same object as the
    format of any registered parser selects none, whatever its name and
    value are. *)
Theorem parser_selection_first_identical `{OT : OfrakType} `{BE : !Backend}
    (processor : ArchInfo.t) (toolchain_config : ToolchainConfig.t) :
  let fmt := ToolchainConfig.file_format toolchain_config in
  (∀ before parser after,
     binary_file_parsers = before ++ parser :: after →
     (∀ q, q ∈ before →
           BinFileType.ob_id (AbstractBinaryFileParser.file_format q)
           ≠ BinFileType.ob_id fmt) →
     BinFileType.ob_id (AbstractBinaryFileParser.file_format parser)
     = BinFileType.ob_id fmt →
     (∀ t, __init__ processor toolchain_config = Ok t → _parser t = parser)
     ∧ ∀ a c, _get_assembler_target toolchain_config processor = Ok a →
              _get_compiler_target toolchain_config processor = Ok c →
              ∃ t, __init__ processor toolchain_config = Ok t ∧ _parser t = parser)
  ∧ ((∀ q, q ∈ binary_file_parsers →
           BinFileType.ob_id (AbstractBinaryFileParser.file_format q)
           ≠ BinFileType.ob_id fmt) →
     __init__ processor toolchain_config
     = Raise (ValueError ("No binary file parser found for format "
                          +:+ BinFileType.name fmt +:+ "!"))).
Proof.
  intros fmt. split.
  - intros before parser after Hl Hb Hp.
    assert (__init___scan binary_file_parsers fmt = Some parser) as Hscan.
    { apply scan_Some. exists before, after. split; [exact Hl|]. split.
      - intros q Hq. unfold py_is. apply Nat.eqb_neq. by apply Hb.
      - unfold py_is. by apply Nat.eqb_eq. }
    destruct (__init___bound processor toolchain_config parser Hscan)
      as (Hok & Hret & _).
    split; [intros t Ht; exact (proj1 (Hok t Ht)) | exact Hret].
  - intros Hnone. apply __init___unbound. apply scan_None.
    intros q Hq. unfold py_is. apply Nat.eqb_neq. by apply Hnone.
Qed.

Lemma parser_selection_first_identical_witness :
  (∃ t, @__init__ Demo.ofrak_type Demo.backend Demo.processor
          (Demo.config Demo.ELF false false) = Ok t
        ∧ _parser t = Demo.elf_parser)
  ∧ BinFileType.name Demo.ELF_twin = BinFileType.name Demo.ELF
  ∧ BinFileType.value Demo.ELF_twin = BinFileType.value Demo.ELF
  ∧ @__init__ Demo.ofrak_type Demo.backend Demo.processor
      (Demo.config Demo.ELF_twin false false)
    = Raise (ValueError "No binary file parser found for format ELF!").
Proof.
  split; [|split; [reflexivity|split; [reflexivity|]]].
  - refine (proj2 (proj1 (@parser_selection_first_identical Demo.ofrak_type
                            Demo.backend Demo.processor (Demo.config Demo.ELF false false))
                     [Demo.coff_parser] Demo.elf_parser [Demo.elf_parser'] eq_refl _ eq_refl)
              "armv7-a" None eq_refl eq_refl).
    intros q Hq. apply list_elem_of_singleton in Hq as ->. cbn. lia.
  - apply (proj2 (@parser_selection_first_identical Demo.ofrak_type Demo.backend
                    Demo.processor (Demo.config Demo.ELF_twin false false))).
    intros q Hq. cbn in Hq. set_unfold in Hq.
    destruct Hq as [-> | [-> | [-> | []]]]; cbn; lia.
Defined.

(** C5: for a driver built by [__init__] from a configuration whose
    [separate_data_sections] is false, [keep_section] returns a boolean, and
    it is true exactly for the names [.data], [.rodata], [.text], [.rel]. *)
Theorem keep_section_fixed_list `{OT : OfrakType} `{BE : !Backend}
    (processor : ArchInfo.t) (toolchain_config : ToolchainConfig.t)
    (self : Toolchain) (section_name : string) :
  __init__ processor toolchain_config = Ok self →
  ToolchainConfig.separate_data_sections toolchain_config = false →
  ∃ b, keep_section self section_name = Ok b
       ∧ (b = true ↔ section_name = ".data" ∨ section_name = ".rodata"
                      ∨ section_name = ".text" ∨ section_name = ".rel").
Proof.
  intros Hinit Hflag.
  destruct (__init___scan binary_file_parsers
              (ToolchainConfig.file_format toolchain_config)) as [parser|] eqn:Hscan.
  - destruct (proj1 (__init___bound processor toolchain_config parser Hscan) self Hinit)
      as (_ & Hcfg & Hkeep).
    unfold keep_section. rewrite Hcfg, Hflag, Hkeep.
    eexists. split; [reflexivity|].
    rewrite bool_decide_eq_true, !elem_of_cons, elem_of_nil. tauto.
  - rewrite (__init___unbound _ _ Hscan) in Hinit. discriminate.
Qed.

Lemma keep_section_fixed_list_witness :
  (∃ b, keep_section (Demo.toolchain false false) ".text" = Ok b
        ∧ (b = true ↔ ".text" = ".data" ∨ ".text" = ".rodata"
                       ∨ ".text" = ".text" ∨ ".text" = ".rel"))
  ∧ (∃ b, keep_section (Demo.toolchain false false) ".bss" = Ok b
          ∧ (b = true ↔ ".bss" = ".data" ∨ ".bss" = ".rodata"
                         ∨ ".bss" = ".text" ∨ ".bss" = ".rel")).
Proof.
  split.
  - exact (@keep_section_fixed_list Demo.ofrak_type Demo.backend Demo.processor
             (Demo.config Demo.ELF false false) (Demo.toolchain false false)
             ".text" eq_refl eq_refl).
  - exact (@keep_section_fixed_list Demo.ofrak_type Demo.backend Demo.processor
             (Demo.config Demo.ELF false false) (Demo.toolchain false false)
             ".bss" eq_refl eq_refl).
Defined.

(** C6: with [separate_data_sections] set, the base [keep_section] raises
    [NotImplementedError] for every section name and returns no boolean. *)
Theorem keep_section_requires_override `{OT : OfrakType}
    (self : Toolchain) (section_name : string) :
  ToolchainConfig.separate_data_sections (_config self) = true →
  keep_section self section_name
  = Raise (NotImplementedError
             "you must override keep_section() in your Toolchain sublass")
  ∧ ∀ b, keep_section self section_name ≠ Ok b.
Proof. intros Hflag. unfold keep_section. rewrite Hflag. by split. Qed.

Lemma keep_section_requires_override_witness :
  keep_section (Demo.toolchain true false) ".text"
  = Raise (NotImplementedError
             "you must override keep_section() in your Toolchain sublass")
  ∧ ∀ b, keep_section (Demo.toolchain true false) ".text" ≠ Ok b.
Proof.
  exact (@keep_section_requires_override Demo.ofrak_type
           (Demo.toolchain true false) ".text" eq_refl).
Defined.

(** C8: [linker_include_filter] is true exactly for the names that contain
    a dot or the substring [_DYNAMIC]; it is true for [foo.bar] and for
    [_DYNAMIC_LINK] and false for [plain]. *)
Theorem linker_include_filter_spec :
  (∀ symbol_name,
     linker_include_filter symbol_name = true
     ↔ (∃ pre post, symbol_name = pre +:+ "." +:+ post)
       ∨ (∃ pre post, symbol_name = pre +:+ "_DYNAMIC" +:+ post))
  ∧ linker_include_filter "foo.bar" = true
  ∧ linker_include_filter "_DYNAMIC_LINK" = true
  ∧ linker_include_filter "plain" = false.
Proof.
  split; [|by repeat split].
  intros symbol_name. unfold linker_include_filter.
  by rewrite orb_true_iff, !contains_spec.
Qed.

(** * Further properties of the driver *)

(** ** Base names of joined and normalised paths *)

Lemma length_append (p q : string) :
  String.length (p +:+ q) = (String.length p + String.length q)%nat.
Proof. induction p as [|a p IH]; str_simpl; cbn [String.length]; [done | by rewrite IH]. Qed.

Lemma substring_skip (p q : string) :
  String.substring (String.length p) (String.length q) (p +:+ q) = q.
Proof.
  induction p as [|a p IH]; str_simpl; cbn [String.length].
  - apply substring_full.
  - cbn [String.substring]. exact IH.
Qed.

Lemma rfind_none (c : ascii) (p : string) :
  PyStr.contains (String c EmptyString) p = false → PyStr.rfind c p = -1.
Proof.
  induction p as [|a p IH]; [done|].
  rewrite contains_char_cons. intros [Ha Hp]%orb_false_iff.
  cbn [PyStr.rfind]. by rewrite (IH Hp), Ha.
Qed.

Lemma rfind_last (c : ascii) (p q : string) :
  PyStr.contains (String c EmptyString) q = false →
  PyStr.rfind c (p +:+ String c q) = Z.of_nat (String.length p).
Proof.
  intros Hq. induction p as [|a p IH]; str_simpl; cbn [PyStr.rfind String.length].
  - rewrite (rfind_none c q Hq). cbn. by rewrite Ascii.eqb_refl.
  - rewrite IH. destruct (Z.leb_spec 0 (Z.of_nat (String.length p))); lia.
Qed.

(** The tail of [split] after a directory prefix is what follows it. *)
Lemma split_tail_after (X c : string) :
  X = EmptyString ∨ (∃ X0, X = X0 +:+ "/") →
  PyStr.contains "/" c = false →
  snd (PosixPath.split (X +:+ c)) = c.
Proof.
  intros HX Hc. unfold PosixPath.split. cbn [snd]. unfold PyStr.slice_from.
  destruct HX as [-> | [X0 ->]]; str_simpl.
  - rewrite (rfind_none PosixPath.sep c Hc). change (Z.to_nat (-1 + 1)) with 0%nat.
    by rewrite Nat.sub_0_r, substring_full.
  - set (s := (X0 +:+ "/") +:+ c).
    assert (PyStr.rfind PosixPath.sep s = Z.of_nat (String.length X0)) as ->.
    { unfold s. rewrite append_assoc. apply (rfind_last PosixPath.sep X0 c Hc). }
    replace (Z.to_nat (Z.of_nat (String.length X0) + 1))
      with (String.length (X0 +:+ "/")) by (rewrite length_append; cbn; lia).
    replace (String.length s - String.length (X0 +:+ "/"))%nat
      with (String.length c) by (unfold s; rewrite (length_append (X0 +:+ "/")); lia).
    apply substring_skip.
Qed.

Lemma endswith_spec (q p : string) :
  PyStr.endswith q p = true ↔ ∃ pre, p = pre +:+ q.
Proof.
  induction p as [|a p IH]; cbn [PyStr.endswith].
  - rewrite orb_false_r, String.eqb_eq. split.
    + intros ->. by exists EmptyString.
    + intros [pre H]. destruct pre; str_simpl_in H; [done | discriminate].
  - rewrite orb_true_iff, String.eqb_eq, IH. split.
    + intros [-> | [pre ->]]; [by exists EmptyString | by exists (String a pre)].
    + intros [pre H]. destruct pre as [|b pre]; str_simpl_in H.
      * by left.
      * right. exists pre. congruence.
Qed.

(** [join(d, c)] puts [c] after a directory prefix. *)
Lemma join_prefix_form (d c : string) :
  PyStr.startswith "/" c = false →
  ∃ X, PosixPath.join d [c] = X +:+ c
       ∧ (X = EmptyString ∨ ∃ X0, X = X0 +:+ "/")
       ∧ (PosixPath.isabs d = true → PosixPath.isabs X = true).
Proof.
  intros Hc. unfold PosixPath.join. cbn [fold_left]. unfold PosixPath.join_step, PosixPath.sep_s.
  rewrite Hc. destruct (String.eqb_spec d EmptyString) as [->|Hd]; cbn [orb].
  - exists EmptyString. split; [done|]. split; [by left | done].
  - destruct (PyStr.endswith "/" d) eqn:He.
    + exists d. split; [done|]. split; [|done].
      right. by apply endswith_spec.
    + exists (d +:+ "/"). split; [by rewrite append_assoc|]. split; [right; by exists d|].
      intros Habs. by apply startswith_app.
Qed.

Lemma repeat_snoc (c : ascii) (n : nat) :
  PyStr.repeat c (S n) = PyStr.repeat c n +:+ String c EmptyString.
Proof. induction n as [|n IH]; [done|]. cbn [PyStr.repeat] in *. str_simpl. by rewrite <- IH. Qed.

Lemma join_app_singleton (N : list string) (c : string) :
  PyStr.join "/" (N ++ [c])
  = if bool_decide (N = []) then c else (PyStr.join "/" N +:+ "/") +:+ c.
Proof.
  destruct N as [|n N]; [done|]. rewrite bool_decide_eq_false_2 by done.
  rewrite join_snoc by done. by rewrite append_assoc.
Qed.

(** The components [normpath] keeps of [X + c] are those it keeps of the
    prefix [X], then [c]. *)
Lemma normpath_comps_after (k : nat) (X c : string) :
  X = EmptyString ∨ (∃ X0, X = X0 +:+ "/") →
  is_plain_component c →
  ∃ N, fold_left (PosixPath.normpath_step k) (PyStr.split PosixPath.sep (X +:+ c)) []
       = N ++ [c].
Proof.
  intros HX ((Hne & Hsep) & Hdot & Hdotdot).
  destruct HX as [-> | [X0 ->]].
  - exists []. str_simpl. rewrite (split_no_sep PosixPath.sep c Hsep). cbn [fold_left].
    by rewrite normpath_step_plain.
  - eexists. rewrite append_assoc.
    change ("/" +:+ c) with (String PosixPath.sep c).
    rewrite split_app, (split_no_sep PosixPath.sep c Hsep), fold_left_app.
    cbn [fold_left]. by rewrite normpath_step_plain.
Qed.

(** [normpath] keeps the last component of a path when it is a plain name. *)
Lemma normpath_prefix_form (X c : string) :
  X = EmptyString ∨ (∃ X0, X = X0 +:+ "/") →
  is_plain_component c →
  ∃ Y, PosixPath.normpath (X +:+ c) = Y +:+ c
       ∧ (Y = EmptyString ∨ ∃ Y0, Y = Y0 +:+ "/").
Proof.
  intros HX Hc. pose proof Hc as ((Hne & Hsep) & _).
  unfold PosixPath.normpath.
  assert (X +:+ c ≠ EmptyString) as Hp.
  { destruct X; str_simpl; [exact Hne | done]. }
  rewrite (proj2 (String.eqb_neq _ _) Hp).
  set (k := PosixPath.initial_slashes_of (X +:+ c)).
  destruct (normpath_comps_after k X c HX Hc) as [N ->].
  rewrite join_app_singleton. unfold PosixPath.sep_s.
  set (Y := PyStr.repeat PosixPath.sep k +:+
            (if bool_decide (N = []) then EmptyString else PyStr.join "/" N +:+ "/")).
  assert (PyStr.repeat PosixPath.sep k +:+
            (if bool_decide (N = []) then c else (PyStr.join "/" N +:+ "/") +:+ c)
          = Y +:+ c) as ->.
  { unfold Y. destruct (bool_decide (N = []));
      [by rewrite append_empty_r | by rewrite !append_assoc]. }
  assert (Y +:+ c ≠ EmptyString) as HYc.
  { destruct Y; str_simpl; [exact Hne | done]. }
  rewrite (proj2 (String.eqb_neq _ _) HYc).
  exists Y. split; [done|]. unfold Y.
  destruct (bool_decide (N = [])).
  - rewrite append_empty_r. destruct k as [|k]; [by left|].
    right. exists (PyStr.repeat PosixPath.sep k). apply repeat_snoc.
  - right. exists (PyStr.repeat PosixPath.sep k +:+ PyStr.join "/" N).
    by rewrite append_assoc.
Qed.

(** The path [abspath] normalises ends in the same plain component. *)
Lemma abspath_tail (cwd out_dir c : string) :
  is_plain_component c →
  snd (PosixPath.split (PosixPath.abspath cwd (PosixPath.join out_dir [c]))) = c.
Proof.
  intros Hc. pose proof Hc as ((Hne & Hsep) & _).
  pose proof (component_not_startswith c (proj1 Hc)) as Hs.
  destruct (join_prefix_form out_dir c Hs) as (X & -> & HX & _).
  unfold PosixPath.abspath.
  assert (∃ X', (if negb (PosixPath.isabs (X +:+ c))
                 then PosixPath.join cwd [X +:+ c] else X +:+ c) = X' +:+ c
                ∧ (X' = EmptyString ∨ ∃ X0, X' = X0 +:+ "/")) as (X' & -> & HX').
  { destruct (PosixPath.isabs (X +:+ c)) eqn:Habs; cbn [negb]; [by exists X|].
    destruct (join_prefix_form cwd (X +:+ c) Habs) as (W & -> & HW & _).
    exists (W +:+ X). split; [by rewrite append_assoc|].
    destruct HX as [-> | [X0 ->]].
    - rewrite append_empty_r. exact HW.
    - right. exists (W +:+ X0). by rewrite append_assoc. }
  destruct (normpath_prefix_form X' c HX' Hc) as (Y & -> & HY).
  by apply split_tail_after.
Qed.

(** ** Absolute paths are normalised once and for all *)

Lemma plain_components (N : list string) :
  Forall is_plain_component N → Forall PosixPath.is_component N.
Proof. intros HN. eapply Forall_impl; [exact HN|]. by intros x [? _]. Qed.

Lemma last_plain_not_dotdot (N : list string) :
  Forall is_plain_component N → PosixPath.last_is_dotdot N = false.
Proof.
  intros HN. unfold PosixPath.last_is_dotdot.
  destruct (last N) as [x|] eqn:Hl; [|done].
  apply last_Some_elem_of in Hl. rewrite Forall_forall in HN.
  destruct (HN x Hl) as (_ & _ & Hx). by apply String.eqb_neq.
Qed.

Lemma Forall_removelast {A} (P : A → Prop) (l : list A) :
  Forall P l → Forall P (removelast l).
Proof.
  induction 1 as [|x l Hx Hl IH]; [constructor|].
  destruct l; cbn [removelast]; [constructor | by constructor].
Qed.

Lemma normpath_step_abs (k : nat) (N : list string) (comp : string) :
  (1 ≤ k)%nat → Forall is_plain_component N →
  PyStr.contains "/" comp = false →
  Forall is_plain_component (PosixPath.normpath_step k N comp).
Proof.
  intros Hk HN Hsep. unfold PosixPath.normpath_step.
  destruct (String.eqb_spec comp EmptyString) as [->|Hne]; [done|]. cbn [orb].
  destruct (String.eqb_spec comp ".") as [->|Hdot]; [done|].
  rewrite (last_plain_not_dotdot N HN), andb_false_r, orb_false_r.
  replace (Nat.eqb k 0) with false by (symmetry; apply Nat.eqb_neq; lia).
  cbn [andb]. rewrite orb_false_r.
  destruct (String.eqb_spec comp "..") as [->|Hdotdot]; cbn [negb].
  - destruct (negb _); [by apply Forall_removelast | done].
  - apply Forall_app. split; [done|]. by repeat constructor.
Qed.

Lemma normpath_fold_abs (k : nat) (comps N : list string) :
  (1 ≤ k)%nat → Forall is_plain_component N →
  Forall (λ x, PyStr.contains "/" x = false) comps →
  Forall is_plain_component (fold_left (PosixPath.normpath_step k) comps N).
Proof.
  intros Hk HN Hc. revert N HN.
  induction Hc as [|c comps Hc _ IH]; intros N HN; cbn [fold_left]; [done|].
  apply IH. by apply normpath_step_abs.
Qed.

(** What [normpath] answers for an absolute path: one or two slashes, then
    plain components joined by slashes. *)
Lemma normpath_abs_shape (p : string) :
  PosixPath.isabs p = true →
  ∃ k N, (k = 1%nat ∨ k = 2%nat) ∧ Forall is_plain_component N
         ∧ PosixPath.normpath p = PyStr.repeat PosixPath.sep k +:+ PyStr.join "/" N.
Proof.
  intros Habs. pose proof (isabs_initial_slashes p Habs) as Hk.
  assert (p ≠ EmptyString) as Hp by (intros ->; discriminate).
  unfold PosixPath.normpath. rewrite (proj2 (String.eqb_neq _ _) Hp).
  set (k := PosixPath.initial_slashes_of p) in *.
  set (N := fold_left (PosixPath.normpath_step k) (PyStr.split PosixPath.sep p) []).
  exists k, N. split; [exact Hk|]. split.
  - apply normpath_fold_abs; [lia | constructor | apply split_elems_no_sep].
  - unfold PosixPath.sep_s.
    destruct (String.eqb_spec (PyStr.repeat PosixPath.sep k +:+ PyStr.join "/" N) EmptyString)
      as [He|]; [|done].
    destruct Hk as [Hk | Hk]; rewrite Hk in He; discriminate.
Qed.

Lemma join_nonempty_form (d c : string) :
  d ≠ EmptyString → PyStr.startswith "/" c = false →
  PosixPath.join d [c] = if PyStr.endswith "/" d then d +:+ c else d +:+ "/" +:+ c.
Proof.
  intros Hd Hc. unfold PosixPath.join. cbn [fold_left].
  unfold PosixPath.join_step, PosixPath.sep_s.
  by rewrite Hc, (proj2 (String.eqb_neq _ _) Hd).
Qed.

(** Such an answer is absolute and normalised. *)
Lemma normal_form_normalised (k : nat) (N : list string) :
  k = 1%nat ∨ k = 2%nat → Forall is_plain_component N →
  PosixPath.isabs (PyStr.repeat PosixPath.sep k +:+ PyStr.join "/" N) = true
  ∧ PosixPath.normpath (PyStr.repeat PosixPath.sep k +:+ PyStr.join "/" N)
    = PyStr.repeat PosixPath.sep k +:+ PyStr.join "/" N.
Proof.
  intros Hk. induction N as [|c N IH] using rev_ind; intros HN.
  - cbn [PyStr.join]. rewrite append_empty_r. by destruct Hk as [-> | ->].
  - apply Forall_app in HN as [HN Hc]. rewrite Forall_singleton in Hc.
    destruct (IH HN) as [Habs Hnorm].
    set (D := PyStr.repeat PosixPath.sep k +:+ PyStr.join "/" N) in *.
    pose proof Hc as (Hcomp & Hdot & Hdotdot).
    assert (D ≠ EmptyString) as HD by (intros HD; rewrite HD in Habs; discriminate).
    assert (PyStr.repeat PosixPath.sep k +:+ PyStr.join "/" (N ++ [c])
            = PosixPath.join D [c]) as ->.
    { rewrite (join_nonempty_form D c HD (component_not_startswith c Hcomp)).
      rewrite join_app_singleton. unfold D.
      destruct N as [|n N].
      - rewrite bool_decide_eq_true_2 by done. cbn [PyStr.join].
        rewrite append_empty_r. by destruct Hk as [-> | ->].
      - rewrite bool_decide_eq_false_2 by done.
        pose proof (plain_components (n :: N) HN) as HNc.
        assert (n :: N ≠ []) as Hne by done.
        destruct (join_components_head (n :: N) HNc Hne) as (b & J & HJ & _).
        assert (PyStr.endswith "/"
                  (PyStr.repeat PosixPath.sep k +:+ PyStr.join "/" (n :: N)) = false) as ->.
        { rewrite (endswith_app_nonempty PosixPath.sep) by (by rewrite HJ).
          by apply join_components_not_endswith. }
        by rewrite !append_assoc. }
    split; [by apply isabs_join | by apply normpath_join_component].
Qed.

(** [abspath] answers an absolute, normalised path whenever the working
    directory is absolute. *)
Lemma abspath_normalised (cwd path : string) :
  PosixPath.isabs cwd = true →
  PosixPath.isabs (PosixPath.abspath cwd path) = true
  ∧ PosixPath.normpath (PosixPath.abspath cwd path) = PosixPath.abspath cwd path.
Proof.
  intros Hcwd. unfold PosixPath.abspath.
  set (p := if negb (PosixPath.isabs path) then PosixPath.join cwd [path] else path).
  assert (PosixPath.isabs p = true) as Hp.
  { unfold p. destruct (PosixPath.isabs path) eqn:Hpath; cbn [negb];
      [exact Hpath | by apply isabs_join]. }
  destruct (normpath_abs_shape p Hp) as (k & N & Hk & HN & ->).
  by apply normal_form_normalised.
Qed.

(** ** More on the process runner *)

(** The world [_execute_tool] leaves behind. *)
Lemma _execute_tool_world `{HO : Host} tool_path flags in_files out_file env (w : World) :
  let args := _execute_tool_args tool_path flags in_files out_file in
  let merged := default ∅ env ∪ deref w os_environ in
  snd (_execute_tool tool_path flags in_files out_file env w)
  = {| heap := if env_truthy env
               then <[fresh (dom (heap w)) := merged]> (heap w) else heap w;
       cwd := cwd w;
       log := log w ++ Info (PyStr.join " " args)
                       :: (if env_truthy env then [InfoWithEnv merged] else []);
       calls := calls w ++ [{| inv_args := args;
                               inv_env := handed_environment env w |}] |}.
Proof.
  intros args merged. subst merged. unfold _execute_tool, handed_environment.
  fold args. destruct w as [h c l cs]. unfold_M. unfold deref.
  destruct (env_truthy env) eqn:Henv; cbn -[fresh args _execute_child_check].
  - rewrite !lookup_insert_eq. cbn [default from_option id].
    rewrite insert_insert_eq, <- app_assoc. cbn [app].
    destruct (_execute_child_check args
                (Some (default ∅ env ∪ default ∅ (h !! os_environ))))
      as [err|] eqn:Hcheck;
      [apply check_is_ValueError in Hcheck as [-> | ->]
      |destruct (run_process cs args
                   (Some (default ∅ env ∪ default ∅ (h !! os_environ))))
         as [rc raw|msg];
       [destruct (PyStr.utf8_valid raw); [destruct (bool_decide (rc = 0))|]|]];
      reflexivity.
  - destruct (_execute_child_check args None) as [err|] eqn:Hcheck;
      [apply check_is_ValueError in Hcheck as [-> | ->]
      |destruct (run_process cs args None) as [rc raw|msg];
       [destruct (PyStr.utf8_valid raw); [destruct (bool_decide (rc = 0))|]|]];
      reflexivity.
Qed.

(** X1: what [subprocess.run] raises before a child runs passes through
    [_execute_tool] unchanged, after one call of [subprocess.run]: the
    [ValueError] of [subprocess] for an environment variable name with [=]
    or for a NUL byte in an argument or an environment entry (it is not the
    [ValueError] that names the command line), and the [OSError] when the
    operating system cannot start the program. *)
Theorem execute_tool_spawn_failure `{HO : Host} tool_path flags in_files out_file env
    (w : World) :
  let args := _execute_tool_args tool_path flags in_files out_file in
  let r := _execute_tool tool_path flags in_files out_file env w in
  calls (snd r)
  = calls w ++ [{| inv_args := args; inv_env := handed_environment env w |}]
  ∧ (∀ err, _execute_child_check args (handed_environment env w) = Some err →
       fst r = Raise err
       ∧ (err = ValueError "illegal environment variable name"
          ∨ err = ValueError "embedded null byte"))
  ∧ (∀ a, a ∈ args → PyStr.has_nul a = true → env_truthy env = false →
       fst r = Raise (ValueError "embedded null byte"))
  ∧ (∀ msg, _execute_child_check args (handed_environment env w) = None →
       run_process (calls w) args (handed_environment env w) = NotStarted msg →
       fst r = Raise (OSError msg)).
Proof.
  intros args r. subst r.
  destruct (_execute_tool_run tool_path flags in_files out_file env w)
    as (w' & Heq & Hcalls & _).
  fold args in Heq, Hcalls. rewrite Heq. cbn [fst snd].
  split; [exact Hcalls|]. split; [|split].
  - intros err Hcheck. split; [by apply answer_of_refused|].
    by apply check_is_ValueError in Hcheck.
  - intros a Ha Hnul Henv. apply answer_of_refused.
    unfold _execute_child_check, handed_environment. rewrite Henv.
    assert (existsb PyStr.has_nul args = true) as ->; [|done].
    apply existsb_exists. exists a. split; [by apply list_elem_of_In | exact Hnul].
  - intros msg Hcheck Hrun. rewrite Hrun. by apply answer_of_not_started.
Qed.

(** X2: in the environment of the child, a variable named in the overlay has
    the overlay's value, and every other variable has its ambient value. *)
Theorem overlay_overrides_by_key `{HO : Host}
    tool_path flags in_files out_file (overlay : gmap string string) (w : World) :
  let r := _execute_tool tool_path flags in_files out_file (Some overlay) w in
  ∃ i, calls (snd r) = calls w ++ [i]
       ∧ (∀ k v, overlay !! k = Some v →
                 child_environment (deref w os_environ) i !! k = Some v)
       ∧ (∀ k, overlay !! k = None →
               child_environment (deref w os_environ) i !! k
               = deref w os_environ !! k).
Proof.
  intros r. subst r.
  destruct (_execute_tool_run tool_path flags in_files out_file (Some overlay) w)
    as (w' & Heq & Hcalls & _).
  rewrite Heq. cbn [snd]. eexists. split; [exact Hcalls|].
  unfold child_environment, handed_environment. cbn [inv_env].
  destruct (env_truthy (Some overlay)) eqn:Henv; cbn [default].
  - split.
    + intros k v Hk. by apply lookup_union_Some_l.
    + intros k Hk. by apply lookup_union_r.
  - unfold env_truthy in Henv. apply negb_false_iff, bool_decide_eq_true in Henv.
    subst overlay. split; [intros k v Hk; by rewrite lookup_empty in Hk | done].
Qed.

(** X3: an empty overlay is no overlay: the run is the same as without one,
    no dictionary is created and the child inherits the ambient environment. *)
Theorem empty_overlay_is_no_overlay `{HO : Host}
    tool_path flags in_files out_file (w : World) :
  _execute_tool tool_path flags in_files out_file (Some ∅) w
  = _execute_tool tool_path flags in_files out_file None w
  ∧ heap (snd (_execute_tool tool_path flags in_files out_file (Some ∅) w)) = heap w
  ∧ ∃ i, calls (snd (_execute_tool tool_path flags in_files out_file (Some ∅) w))
         = calls w ++ [i]
         ∧ inv_env i = None.
Proof.
  assert (env_truthy (Some ∅) = false) as Hfalsy.
  { unfold env_truthy. by rewrite bool_decide_eq_true_2. }
  split; [|split].
  - unfold _execute_tool. by rewrite Hfalsy.
  - rewrite _execute_tool_world. cbn [heap]. by rewrite Hfalsy.
  - rewrite _execute_tool_world. cbn [calls]. eexists. split; [reflexivity|].
    cbn [inv_env]. unfold handed_environment. by rewrite Hfalsy.
Qed.

(** X4: a non-empty overlay costs one new dictionary, at an address that held
    nothing before, with the overlay on top of the ambient environment. *)
Theorem overlay_copy_is_fresh `{HO : Host}
    tool_path flags in_files out_file (overlay : gmap string string) (w : World) :
  overlay ≠ ∅ →
  ∃ a, heap w !! a = None
       ∧ heap (snd (_execute_tool tool_path flags in_files out_file (Some overlay) w))
         = <[a := overlay ∪ deref w os_environ]> (heap w).
Proof.
  intros Hne. exists (fresh (dom (heap w))). split.
  - apply not_elem_of_dom, is_fresh.
  - rewrite _execute_tool_world. cbn [heap default].
    unfold env_truthy. by rewrite bool_decide_eq_false_2.
Qed.


(** ** More on the pipeline stages *)

Section StageEffects.
Context `{OT : OfrakType} `{HO : !Host} `{BE : !Backend}.

Lemma args_with_output tool flags in_files out_file :
  _execute_tool_args tool flags in_files (Some out_file)
  = [tool] ++ flags ++ ["-o" +:+ out_file] ++ in_files.
Proof. unfold _execute_tool_args. cbn [app]. by rewrite <- app_assoc. Qed.

(** Every way a stage can end, and the world it leaves. *)
Lemma stage_effects (path : Result string) flags in_files out_file (w : World) :
  let stage :=
    (tool ← lift path;
     _ ← _execute_tool tool flags in_files (Some out_file) None;
     os_path_abspath out_file) in
  (∀ e, path = Raise e → stage w = (Raise e, w))
  ∧ ∀ tool, path = Ok tool →
      let args := [tool] ++ flags ++ ["-o" +:+ out_file] ++ in_files in
      snd (stage w)
      = {| heap := heap w; cwd := cwd w;
           log := log w ++ [Info (PyStr.join " " args)];
           calls := calls w ++ [{| inv_args := args; inv_env := None |}] |}
      ∧ fst (stage w)
        = match answer_of args None (run_process (calls w) args None) with
          | Ok _ => Ok (PosixPath.abspath (cwd w) out_file)
          | Raise e => Raise e
          end.
Proof.
  intros stage. subst stage. split; [by intros e ->|].
  intros tool -> args. rewrite (bind_lift_Ok _ tool) by reflexivity.
  pose proof (_execute_tool_world tool flags in_files (Some out_file) None w) as Hw.
  destruct (_execute_tool_run tool flags in_files (Some out_file) None w)
    as (w' & Heq & _).
  cbv zeta in Hw. rewrite Heq in Hw. cbn [snd] in Hw.
  rewrite args_with_output in Heq, Hw. fold args in Heq, Hw.
  change (handed_environment None w) with (@None (gmap string string)) in *.
  change (env_truthy None) with false in Hw. cbv iota in Hw.
  unfold mbind, M_bind. rewrite Heq.
  destruct (answer_of args None (run_process (calls w) args None)) as [out|e].
  - rewrite os_path_abspath_run. cbn [fst snd]. by rewrite Hw.
  - done.
Qed.

Lemma link_effects (self : Toolchain) o_files exec_path script (w : World) :
  (∀ e, get_repository_config name "LINKER" = Raise e →
        link self o_files exec_path script w = (Raise e, w))
  ∧ ∀ tool, get_repository_config name "LINKER" = Ok tool →
      let args := [tool] ++ link_flags self exec_path script
                  ++ ["-o" +:+ exec_path] ++ o_files in
      snd (link self o_files exec_path script w)
      = {| heap := heap w; cwd := cwd w;
           log := log w ++ [Info (PyStr.join " " args)];
           calls := calls w ++ [{| inv_args := args; inv_env := None |}] |}
      ∧ fst (link self o_files exec_path script w)
        = match answer_of args None (run_process (calls w) args None) with
          | Ok _ => Ok tt
          | Raise e => Raise e
          end.
Proof.
  split; [unfold link, _linker_path; by intros e ->|].
  intros tool Htool args. unfold link, _linker_path.
  rewrite (bind_lift_Ok _ tool) by exact Htool.
  pose proof (_execute_tool_world tool (link_flags self exec_path script) o_files
                (Some exec_path) None w) as Hw.
  destruct (_execute_tool_run tool (link_flags self exec_path script) o_files
              (Some exec_path) None w) as (w' & Heq & _).
  cbv zeta in Hw. rewrite Heq in Hw. cbn [snd] in Hw.
  rewrite args_with_output in Heq, Hw. fold args in Heq, Hw.
  change (handed_environment None w) with (@None (gmap string string)) in *.
  change (env_truthy None) with false in Hw. cbv iota in Hw.
  unfold mbind, M_bind. rewrite Heq.
  destruct (answer_of args None (run_process (calls w) args None)) as [out|e];
    cbn [fst snd mret M_ret]; by rewrite Hw.
Qed.

(** The ways a run that was handed no environment can fail. *)
Lemma answer_of_failures (args : list string) (o : ProcOutcome) :
  (∀ err, _execute_child_check args None = Some err →
          answer_of args None o = Raise err)
  ∧ (_execute_child_check args None = None →
     (∀ rc raw, o = Exited rc raw → PyStr.utf8_valid raw = true → rc ≠ 0 →
        answer_of args None o
        = Raise (ValueError (nonzero_exit_message (PyStr.join " " args) rc)))
     ∧ (∀ rc raw, o = Exited rc raw → PyStr.utf8_valid raw = false →
          answer_of args None o = Raise (UnicodeDecodeError "utf-8" raw))
     ∧ (∀ msg, o = NotStarted msg → answer_of args None o = Raise (OSError msg))
     ∧ (∀ raw, o = Exited 0 raw → PyStr.utf8_valid raw = true →
          answer_of args None o = Ok (PyStr.translate_newlines raw))).
Proof.
  split; [intros err Hc; by apply answer_of_refused|].
  intros Hc. split; [|split; [|split]].
  - intros rc raw -> Hv Hrc.
    by rewrite (answer_of_exited _ _ _ _ Hc), Hv, bool_decide_eq_false_2.
  - intros rc raw -> Hv. by rewrite (answer_of_exited _ _ _ _ Hc), Hv.
  - intros msg ->. by apply answer_of_not_started.
  - intros raw -> Hv. by rewrite (answer_of_exited _ _ _ _ Hc), Hv.
Qed.

End StageEffects.

(** X6: when the path of a tool cannot be looked up, the stage raises the
    error of the lookup and nothing else happens: no child is started and
    nothing is logged. *)
Theorem stage_lookup_failure `{OT : OfrakType} `{HO : !Host} `{BE : !Backend}
    (self : Toolchain) (w : World) (e : exn) :
  (∀ source_file header_dirs out_dir,
     get_repository_config name "PREPROCESSOR" = Raise e →
     preprocess self source_file header_dirs out_dir w = (Raise e, w))
  ∧ (∀ c_file header_dirs out_dir,
     get_repository_config name "COMPILER" = Raise e →
     compile self c_file header_dirs out_dir w = (Raise e, w))
  ∧ (∀ asm_file header_dirs out_dir,
     _assembler_path self w = (Raise e, w) →
     assemble self asm_file header_dirs out_dir w = (Raise e, w))
  ∧ (∀ o_files exec_path script,
     get_repository_config name "LINKER" = Raise e →
     link self o_files exec_path script w = (Raise e, w)).
Proof.
  split; [|split; [|split]].
  - intros source_file header_dirs out_dir Hp. unfold preprocess, _preprocessor_path.
    by apply (stage_effects (get_repository_config name "PREPROCESSOR")).
  - intros c_file header_dirs out_dir Hp. unfold compile, _compiler_path.
    by apply (stage_effects (get_repository_config name "COMPILER")).
  - intros asm_file header_dirs out_dir Hp. unfold assemble.
    unfold _assembler_path in *. unfold lift in Hp at 1. injection Hp as Hp.
    by apply (stage_effects (get_repository_config "ASM" _)).
  - intros o_files exec_path script Hp. by apply link_effects.
Qed.

Lemma stage_lookup_failure_witness :
  @preprocess Demo.ofrak_type Bare.host Demo.backend (Demo.toolchain false false)
    "a.c" [] "." Demo.world
  = (Raise (OtherException "NotFoundError" "PREPROCESSOR"), Demo.world)
  ∧ @assemble Demo.ofrak_type Bare.host (Demo.toolchain false false)
      "a.S" [] "." Demo.world
    = (Raise (OtherException "NotFoundError" "ARM_ASM_PATH"), Demo.world)
  ∧ @link Demo.ofrak_type Bare.host Demo.backend (Demo.toolchain false false)
      ["a.o"] "patch" None Demo.world
    = (Raise (OtherException "NotFoundError" "LINKER"), Demo.world).
Proof.
  split; [|split].
  - exact (proj1 (@stage_lookup_failure Demo.ofrak_type Bare.host Demo.backend
                    (Demo.toolchain false false) Demo.world _) "a.c" [] "." eq_refl).
  - exact (proj1 (proj2 (proj2 (@stage_lookup_failure Demo.ofrak_type Bare.host
                                  Demo.backend (Demo.toolchain false false)
                                  Demo.world _))) "a.S" [] "." eq_refl).
  - exact (proj2 (proj2 (proj2 (@stage_lookup_failure Demo.ofrak_type Bare.host
                                  Demo.backend (Demo.toolchain false false)
                                  Demo.world _))) ["a.o"] "patch" None eq_refl).
Defined.

(** X7: [preprocess], [compile] and [assemble] return no path when their
    tool fails, and raise what [_execute_tool] raises: the [ValueError] of
    [subprocess] when an argument is refused before a child exists; and, for
    arguments that pass, the [ValueError] naming the joined command line and
    the status when the tool wrote well-formed UTF-8 and exited with a
    non-zero status, [UnicodeDecodeError] when it wrote anything else
    (whatever the status), and the [OSError] when it cannot be started. *)
Theorem stage_tool_failure `{OT : OfrakType} `{HO : !Host} `{BE : !Backend}
    (self : Toolchain) (input : string) (header_dirs : list string)
    (out_dir : string) (w : World) (tool : string) :
  let out_file sfx := PosixPath.join out_dir [snd (PosixPath.split input) +:+ sfx] in
  let args flags sfx :=
    [tool] ++ flags ++ ["-o" +:+ out_file sfx] ++ [input] ++ include_flags header_dirs in
  let failed flags sfx (r : Result string) :=
    (∀ err, _execute_child_check (args flags sfx) None = Some err → r = Raise err)
    ∧ (_execute_child_check (args flags sfx) None = None →
       (∀ rc raw, run_process (calls w) (args flags sfx) None = Exited rc raw →
          PyStr.utf8_valid raw = true → rc ≠ 0 →
          r = Raise (ValueError
                (nonzero_exit_message (PyStr.join " " (args flags sfx)) rc)))
       ∧ (∀ rc raw, run_process (calls w) (args flags sfx) None = Exited rc raw →
            PyStr.utf8_valid raw = false →
            r = Raise (UnicodeDecodeError "utf-8" raw))
       ∧ (∀ msg, run_process (calls w) (args flags sfx) None = NotStarted msg →
            r = Raise (OSError msg))) in
  (get_repository_config name "PREPROCESSOR" = Ok tool →
   failed (_preprocessor_flags self) ".p"
     (fst (preprocess self input header_dirs out_dir w)))
  ∧ (get_repository_config name "COMPILER" = Ok tool →
     failed (_compiler_flags self) ".o"
       (fst (compile self input header_dirs out_dir w)))
  ∧ (_assembler_path self w = (Ok tool, w) →
     failed (_assembler_flags self) ".o"
       (fst (assemble self input header_dirs out_dir w))).
Proof.
  intros out_file args failed. subst failed.
  assert (∀ (path : Result string) flags sfx,
            path = Ok tool →
            let r := fst ((t ← lift path;
                           _ ← _execute_tool t flags
                                 ([input] ++ include_flags header_dirs)
                                 (Some (out_file sfx)) None;
                           os_path_abspath (out_file sfx)) w) in
            (∀ err, _execute_child_check (args flags sfx) None = Some err →
                    r = Raise err)
            ∧ (_execute_child_check (args flags sfx) None = None →
               (∀ rc raw, run_process (calls w) (args flags sfx) None = Exited rc raw →
                  PyStr.utf8_valid raw = true → rc ≠ 0 →
                  r = Raise (ValueError
                        (nonzero_exit_message (PyStr.join " " (args flags sfx)) rc)))
               ∧ (∀ rc raw, run_process (calls w) (args flags sfx) None = Exited rc raw →
                    PyStr.utf8_valid raw = false →
                    r = Raise (UnicodeDecodeError "utf-8" raw))
               ∧ (∀ msg, run_process (calls w) (args flags sfx) None = NotStarted msg →
                    r = Raise (OSError msg)))) as Hall.
  { intros path flags sfx Hpath r. subst r.
    destruct (proj2 (stage_effects path flags ([input] ++ include_flags header_dirs)
                       (out_file sfx) w) tool Hpath) as (_ & ->).
    fold (args flags sfx).
    destruct (answer_of_failures (args flags sfx)
                (run_process (calls w) (args flags sfx) None)) as (Hrefused & Hrest).
    split.
    - intros err Hc. by rewrite (Hrefused err Hc).
    - intros Hc. destruct (Hrest Hc) as (Hfail & Hdec & Hspawn & _).
      split; [|split].
      + intros rc raw Hrun Hv Hrc. by rewrite (Hfail rc raw Hrun Hv Hrc).
      + intros rc raw Hrun Hv. by rewrite (Hdec rc raw Hrun Hv).
      + intros msg Hrun. by rewrite (Hspawn msg Hrun). }
  split; [|split].
  - intros Hp. unfold preprocess, _preprocessor_path.
    exact (Hall (get_repository_config name "PREPROCESSOR") _ ".p" Hp).
  - intros Hp. unfold compile, _compiler_path.
    exact (Hall (get_repository_config name "COMPILER") _ ".o" Hp).
  - intros Hp. unfold assemble.
    unfold _assembler_path in *. unfold lift in Hp at 1. injection Hp as Hp.
    exact (Hall (get_repository_config "ASM" _) _ ".o" Hp).
Qed.

Lemma stage_tool_failure_witness :
  fst (@compile Demo.ofrak_type (Demo.host 1) Demo.backend (Demo.toolchain false false)
         "a.c" ["inc"] "out" Demo.world)
  = Raise (ValueError (nonzero_exit_message "gcc -oout/a.c.o a.c -Iinc" 1))
  ∧ fst (@compile Demo.ofrak_type (Bare.garbled 1) Demo.backend
           (Demo.toolchain false false) "a.c" ["inc"] "out" Demo.world)
    = Raise (UnicodeDecodeError "utf-8" (PyStr.bytes [255%nat]))
  ∧ fst (@compile Demo.ofrak_type (Demo.host 0) Demo.backend
           (Demo.toolchain false false) (PyStr.bytes [97%nat; 0%nat]) [] "out"
           Demo.world)
    = Raise (ValueError "embedded null byte").
Proof.
  split; [|split].
  - refine (proj1 (proj2 (proj1 (proj2 (@stage_tool_failure Demo.ofrak_type
              (Demo.host 1) Demo.backend (Demo.toolchain false false)
              "a.c" ["inc"] "out" Demo.world "gcc")) eq_refl) eq_refl)
              1 "done" eq_refl eq_refl _).
    discriminate.
  - exact (proj1 (proj2 (proj2 (proj1 (proj2 (@stage_tool_failure Demo.ofrak_type
              (Bare.garbled 1) Demo.backend (Demo.toolchain false false)
              "a.c" ["inc"] "out" Demo.world "/opt/COMPILER")) eq_refl) eq_refl))
              1 (PyStr.bytes [255%nat]) eq_refl eq_refl).
  - exact (proj1 (proj1 (proj2 (@stage_tool_failure Demo.ofrak_type
              (Demo.host 0) Demo.backend (Demo.toolchain false false)
              (PyStr.bytes [97%nat; 0%nat]) [] "out" Demo.world "gcc")) eq_refl)
              _ eq_refl).
Defined.

(** X8: [link] returns [None] when its arguments pass the checks of
    [subprocess] and the linker writes well-formed UTF-8 and exits with
    status zero; it raises the [ValueError] naming the joined command line
    and the status when the linker exits with another status,
    [UnicodeDecodeError] when the linker writes anything else (whatever the
    status), the [OSError] when the linker cannot be started, and the
    [ValueError] of [subprocess] when an argument is refused before a child
    exists. *)
Theorem link_outcomes `{OT : OfrakType} `{HO : !Host} `{BE : !Backend}
    (self : Toolchain) o_files exec_path script (w : World) (tool : string) :
  get_repository_config name "LINKER" = Ok tool →
  let args := [tool] ++ link_flags self exec_path script
              ++ ["-o" +:+ exec_path] ++ o_files in
  (∀ err, _execute_child_check args None = Some err →
     fst (link self o_files exec_path script w) = Raise err)
  ∧ (_execute_child_check args None = None →
     (∀ raw, run_process (calls w) args None = Exited 0 raw →
        PyStr.utf8_valid raw = true →
        fst (link self o_files exec_path script w) = Ok tt)
     ∧ (∀ rc raw, run_process (calls w) args None = Exited rc raw →
          PyStr.utf8_valid raw = true → rc ≠ 0 →
          fst (link self o_files exec_path script w)
          = Raise (ValueError (nonzero_exit_message (PyStr.join " " args) rc)))
     ∧ (∀ rc raw, run_process (calls w) args None = Exited rc raw →
          PyStr.utf8_valid raw = false →
          fst (link self o_files exec_path script w)
          = Raise (UnicodeDecodeError "utf-8" raw))
     ∧ (∀ msg, run_process (calls w) args None = NotStarted msg →
          fst (link self o_files exec_path script w) = Raise (OSError msg))).
Proof.
  intros Htool args.
  destruct (proj2 (link_effects self o_files exec_path script w) tool Htool)
    as (_ & ->). fold args.
  destruct (answer_of_failures args (run_process (calls w) args None))
    as (Hrefused & Hrest).
  split.
  - intros err Hc. by rewrite (Hrefused err Hc).
  - intros Hc. destruct (Hrest Hc) as (Hfail & Hdec & Hspawn & Hok).
    split; [|split; [|split]].
    + intros raw Hrun Hv. by rewrite (Hok raw Hrun Hv).
    + intros rc raw Hrun Hv Hrc. by rewrite (Hfail rc raw Hrun Hv Hrc).
    + intros rc raw Hrun Hv. by rewrite (Hdec rc raw Hrun Hv).
    + intros msg Hrun. by rewrite (Hspawn msg Hrun).
Qed.

Lemma link_outcomes_witness :
  fst (@link Demo.ofrak_type (Demo.host 0) Demo.backend (Demo.toolchain false true)
         ["a.o"] "patch" (Some "p.ld") Demo.world) = Ok tt
  ∧ fst (@link Demo.ofrak_type (Demo.host 2) Demo.backend (Demo.toolchain false true)
           ["a.o"] "patch" (Some "p.ld") Demo.world)
    = Raise (ValueError (nonzero_exit_message "ld -Tp.ld -Map patch.map -opatch a.o" 2))
  ∧ fst (@link Demo.ofrak_type (Bare.garbled 0) Demo.backend
           (Demo.toolchain false true) ["a.o"] "patch" None Demo.world)
    = Raise (UnicodeDecodeError "utf-8" (PyStr.bytes [255%nat])).
Proof.
  split; [|split].
  - exact (proj1 (proj2 (@link_outcomes Demo.ofrak_type (Demo.host 0) Demo.backend
                    (Demo.toolchain false true) ["a.o"] "patch" (Some "p.ld")
                    Demo.world "ld" eq_refl) eq_refl) "done" eq_refl eq_refl).
  - refine (proj1 (proj2 (proj2 (@link_outcomes Demo.ofrak_type (Demo.host 2)
                    Demo.backend (Demo.toolchain false true) ["a.o"] "patch"
                    (Some "p.ld") Demo.world "ld" eq_refl) eq_refl))
              2 "done" eq_refl eq_refl _).
    discriminate.
  - exact (proj1 (proj2 (proj2 (proj2 (@link_outcomes Demo.ofrak_type (Bare.garbled 0)
                    Demo.backend (Demo.toolchain false true) ["a.o"] "patch" None
                    Demo.world "/opt/LINKER" eq_refl) eq_refl)))
              0 (PyStr.bytes [255%nat]) eq_refl eq_refl).
Defined.

(** X9: a stage whose tool is configured touches nothing but the log and the
    process history: the dictionaries and the working directory are as
    before, [subprocess.run] was called once, and the one line added to the
    log is the argument vector of that call joined by spaces. *)
Theorem stage_leaves_interpreter_state `{OT : OfrakType} `{HO : !Host} `{BE : !Backend}
    (self : Toolchain) (w : World) (tool : string) :
  let quiet (w' : World) :=
    heap w' = heap w ∧ cwd w' = cwd w
    ∧ ∃ i, calls w' = calls w ++ [i] ∧ inv_env i = None
           ∧ log w' = log w ++ [Info (PyStr.join " " (inv_args i))] in
  (∀ source_file header_dirs out_dir,
     get_repository_config name "PREPROCESSOR" = Ok tool →
     quiet (snd (preprocess self source_file header_dirs out_dir w)))
  ∧ (∀ c_file header_dirs out_dir,
     get_repository_config name "COMPILER" = Ok tool →
     quiet (snd (compile self c_file header_dirs out_dir w)))
  ∧ (∀ asm_file header_dirs out_dir,
     _assembler_path self w = (Ok tool, w) →
     quiet (snd (assemble self asm_file header_dirs out_dir w)))
  ∧ (∀ o_files exec_path script,
     get_repository_config name "LINKER" = Ok tool →
     quiet (snd (link self o_files exec_path script w))).
Proof.
  intros quiet. subst quiet. split; [|split; [|split]].
  - intros source_file header_dirs out_dir Hp. unfold preprocess, _preprocessor_path.
    destruct (proj2 (stage_effects (get_repository_config name "PREPROCESSOR")
                       (_preprocessor_flags self)
                       ([source_file] ++ include_flags header_dirs)
                       (PosixPath.join out_dir
                          [snd (PosixPath.split source_file) +:+ ".p"]) w) tool Hp)
      as (-> & _). cbn [heap cwd log calls]. by eauto 10.
  - intros c_file header_dirs out_dir Hp. unfold compile, _compiler_path.
    destruct (proj2 (stage_effects (get_repository_config name "COMPILER")
                       (_compiler_flags self)
                       ([c_file] ++ include_flags header_dirs)
                       (PosixPath.join out_dir
                          [snd (PosixPath.split c_file) +:+ ".o"]) w) tool Hp)
      as (-> & _). cbn [heap cwd log calls]. by eauto 10.
  - intros asm_file header_dirs out_dir Hp. unfold assemble.
    unfold _assembler_path in *. unfold lift in Hp at 1. injection Hp as Hp.
    destruct (proj2 (stage_effects (get_repository_config "ASM" _)
                       (_assembler_flags self)
                       ([asm_file] ++ include_flags header_dirs)
                       (PosixPath.join out_dir
                          [snd (PosixPath.split asm_file) +:+ ".o"]) w) tool Hp)
      as (-> & _). cbn [heap cwd log calls]. by eauto 10.
  - intros o_files exec_path script Hp.
    destruct (proj2 (link_effects self o_files exec_path script w) tool Hp)
      as (-> & _). cbn [heap cwd log calls]. by eauto 10.
Qed.

Lemma stage_leaves_interpreter_state_witness :
  heap (snd (@compile Demo.ofrak_type (Demo.host 5) Demo.backend
               (Demo.toolchain false false) "a.c" [] "." Demo.world))
  = heap Demo.world.
Proof.
  exact (proj1 (proj1 (proj2 (@stage_leaves_interpreter_state Demo.ofrak_type
                                (Demo.host 5) Demo.backend (Demo.toolchain false false)
                                Demo.world "gcc")) "a.c" [] "." eq_refl)).
Defined.

Lemma execute_tool_spawn_failure_witness :
  fst (_execute_tool (HO := Bare.no_tool) "/opt/COMPILER" [] ["a.c"] (Some "a.o")
         None Demo.world)
  = Raise (OSError "No such file or directory")
  ∧ calls (snd (_execute_tool (HO := Bare.no_tool) "/opt/COMPILER" [] ["a.c"]
                  (Some "a.o") None Demo.world))
    = [{| inv_args := ["/opt/COMPILER"; "-oa.o"; "a.c"]; inv_env := None |}]
  ∧ fst (_execute_tool (HO := Demo.host 0) "gcc" [] [PyStr.bytes [97%nat; 0%nat]]
           None None Demo.world)
    = Raise (ValueError "embedded null byte")
  ∧ fst (_execute_tool (HO := Demo.host 0) "gcc" [] ["a.c"] None
           (Some {[ "A=B" := "x" ]}) Demo.world)
    = Raise (ValueError "illegal environment variable name").
Proof.
  destruct (execute_tool_spawn_failure (HO := Bare.no_tool) "/opt/COMPILER" []
              ["a.c"] (Some "a.o") None Demo.world) as (Hc & _ & _ & Hos).
  destruct (execute_tool_spawn_failure (HO := Demo.host 0) "gcc" []
              [PyStr.bytes [97%nat; 0%nat]] None None Demo.world)
    as (_ & _ & Hnul & _).
  destruct (execute_tool_spawn_failure (HO := Demo.host 0) "gcc" [] ["a.c"] None
              (Some {[ "A=B" := "x" ]}) Demo.world) as (_ & Hname & _).
  split; [exact (Hos _ eq_refl eq_refl)|]. split; [exact Hc|]. split.
  - apply (Hnul (PyStr.bytes [97%nat; 0%nat])); [|reflexivity|reflexivity].
    apply elem_of_cons. right. apply list_elem_of_here.
  - refine (proj1 (Hname _ _)). vm_compute. reflexivity.
Defined.

Lemma overlay_overrides_by_key_witness :
  ∃ i, calls (snd (_execute_tool (HO := Demo.host 0) "gcc" [] ["a.c"] None
                     (Some {[ "PATH" := "/opt/bin" ]}) Demo.world))
       = calls Demo.world ++ [i]
       ∧ child_environment (deref Demo.world os_environ) i !! "PATH" = Some "/opt/bin"
       ∧ child_environment (deref Demo.world os_environ) i !! "HOME"
         = deref Demo.world os_environ !! "HOME".
Proof.
  destruct (overlay_overrides_by_key (HO := Demo.host 0) "gcc" [] ["a.c"] None
              {[ "PATH" := "/opt/bin" ]} Demo.world) as (i & Hc & Hin & Hout).
  exists i. split; [exact Hc|]. split.
  - apply Hin. apply lookup_singleton_eq.
  - apply Hout. by apply lookup_singleton_ne.
Defined.

Lemma overlay_copy_is_fresh_witness :
  ∃ a, heap Demo.world !! a = None
       ∧ heap (snd (_execute_tool (HO := Demo.host 0) "gcc" [] ["a.c"] None
                      (Some {[ "CC" := "clang" ]}) Demo.world))
         = <[a := {[ "CC" := "clang" ]} ∪ deref Demo.world os_environ]>
             (heap Demo.world).
Proof.
  apply (overlay_copy_is_fresh (HO := Demo.host 0) "gcc" [] ["a.c"] None
           {[ "CC" := "clang" ]} Demo.world).
  intros H. apply (f_equal (lookup "CC")) in H.
  by rewrite lookup_singleton_eq, lookup_empty in H.
Defined.


(** ** The path a stage returns *)

Lemma basename_suffix_plain (input sfx : string) :
  sfx = ".p" ∨ sfx = ".o" →
  is_plain_component (snd (PosixPath.split input) +:+ sfx).
Proof. intros Hs. by apply basename_suffix_component. Qed.

(** X10: the path that [preprocess], [compile] or [assemble] returns is
    absolute and normalised whenever the working directory is absolute. *)
Theorem returned_path_absolute_and_normalised
    `{OT : OfrakType} `{HO : !Host} `{BE : !Backend}
    (self : Toolchain) (input : string) (header_dirs : list string)
    (out_dir : string) (w : World) (p : string) :
  PosixPath.isabs (cwd w) = true →
  fst (preprocess self input header_dirs out_dir w) = Ok p
  ∨ fst (compile self input header_dirs out_dir w) = Ok p
  ∨ fst (assemble self input header_dirs out_dir w) = Ok p →
  PosixPath.isabs p = true ∧ PosixPath.normpath p = p.
Proof.
  intros Hcwd Hp.
  assert (∃ path, p = PosixPath.abspath (cwd w) path) as [path ->].
  { destruct Hp as [Hp | [Hp | Hp]]; eexists.
    - by apply (stage_run (get_repository_config name "PREPROCESSOR")) in Hp.
    - by apply (stage_run (get_repository_config name "COMPILER")) in Hp.
    - by apply (stage_run (get_repository_config "ASM" _)) in Hp. }
  by apply abspath_normalised.
Qed.

Lemma returned_path_absolute_and_normalised_witness :
  PosixPath.isabs "/home/build/x/a.c.o" = true
  ∧ PosixPath.normpath "/home/build/x/a.c.o" = "/home/build/x/a.c.o".
Proof.
  apply (@returned_path_absolute_and_normalised Demo.ofrak_type (Demo.host 0)
           Demo.backend (Demo.toolchain false false) "src/a.c" ["inc"] "../build//x"
           Demo.world "/home/build/x/a.c.o" eq_refl).
  right. left. reflexivity.
Defined.

(** X11: the base name of the path a stage returns is the base name of its
    input followed by the suffix of the stage, whatever the output directory
    and the working directory are. *)
Theorem returned_path_basename `{OT : OfrakType} `{HO : !Host} `{BE : !Backend}
    (self : Toolchain) (input : string) (header_dirs : list string)
    (out_dir : string) (w : World) :
  (∀ p, fst (preprocess self input header_dirs out_dir w) = Ok p →
        snd (PosixPath.split p) = snd (PosixPath.split input) +:+ ".p")
  ∧ (∀ p, fst (compile self input header_dirs out_dir w) = Ok p →
          snd (PosixPath.split p) = snd (PosixPath.split input) +:+ ".o")
  ∧ (∀ p, fst (assemble self input header_dirs out_dir w) = Ok p →
          snd (PosixPath.split p) = snd (PosixPath.split input) +:+ ".o").
Proof.
  split; [|split]; intros p Hp.
  - apply (stage_run (get_repository_config name "PREPROCESSOR")) in Hp as ->.
    apply abspath_tail, basename_suffix_plain. by left.
  - apply (stage_run (get_repository_config name "COMPILER")) in Hp as ->.
    apply abspath_tail, basename_suffix_plain. by right.
  - apply (stage_run (get_repository_config "ASM" _)) in Hp as ->.
    apply abspath_tail, basename_suffix_plain. by right.
Qed.

Lemma returned_path_basename_witness :
  snd (PosixPath.split "/home/build/x/a.c.o") = snd (PosixPath.split "src/a.c") +:+ ".o".
Proof.
  exact (proj1 (proj2 (@returned_path_basename Demo.ofrak_type (Demo.host 0)
                         Demo.backend (Demo.toolchain false false) "src/a.c" ["inc"]
                         "../build//x" Demo.world)) "/home/build/x/a.c.o" eq_refl).
Defined.

(** X12: sources with the same base name in different directories are given
    the same output file: the directory of the input plays no part. *)
Theorem same_basename_same_output `{OT : OfrakType} `{HO : !Host} `{BE : !Backend}
    (self : Toolchain) (dir1 dir2 base : string) (dirs1 dirs2 : list string)
    (out_dir : string) (w1 w2 : World) :
  PyStr.contains "/" base = false →
  cwd w1 = cwd w2 →
  let src1 := dir1 +:+ "/" +:+ base in
  let src2 := dir2 +:+ "/" +:+ base in
  (∀ p1 p2, fst (preprocess self src1 dirs1 out_dir w1) = Ok p1 →
            fst (preprocess self src2 dirs2 out_dir w2) = Ok p2 → p1 = p2)
  ∧ (∀ p1 p2, fst (compile self src1 dirs1 out_dir w1) = Ok p1 →
              fst (compile self src2 dirs2 out_dir w2) = Ok p2 → p1 = p2)
  ∧ (∀ p1 p2, fst (assemble self src1 dirs1 out_dir w1) = Ok p1 →
              fst (assemble self src2 dirs2 out_dir w2) = Ok p2 → p1 = p2).
Proof.
  intros Hbase Hcwd src1 src2.
  assert (∀ d, snd (PosixPath.split (d +:+ "/" +:+ base)) = base) as Htail.
  { intros d. rewrite <- append_assoc. apply split_tail_after; [|exact Hbase].
    right. by exists d. }
  split; [|split]; intros p1 p2 H1 H2.
  - apply (stage_run (get_repository_config name "PREPROCESSOR")) in H1, H2.
    subst p1 p2. unfold src1, src2. by rewrite !Htail, Hcwd.
  - apply (stage_run (get_repository_config name "COMPILER")) in H1, H2.
    subst p1 p2. unfold src1, src2. by rewrite !Htail, Hcwd.
  - apply (stage_run (get_repository_config "ASM" _)) in H1, H2.
    subst p1 p2. unfold src1, src2. by rewrite !Htail, Hcwd.
Qed.

Lemma same_basename_same_output_witness :
  ∃ p, fst (@compile Demo.ofrak_type (Demo.host 0) Demo.backend
              (Demo.toolchain false false) ("drivers" +:+ "/" +:+ "init.c") []
              "out" Demo.world) = Ok p
       ∧ fst (@compile Demo.ofrak_type (Demo.host 0) Demo.backend
                (Demo.toolchain false false) ("net" +:+ "/" +:+ "init.c") ["inc"]
                "out" Demo.world) = Ok p.
Proof.
  exists (PosixPath.abspath "/home/u" "out/init.c.o"). split; [reflexivity|].
  rewrite (proj1 (proj2 (@same_basename_same_output Demo.ofrak_type (Demo.host 0)
                           Demo.backend (Demo.toolchain false false)
                           "drivers" "net" "init.c" [] ["inc"] "out"
                           Demo.world Demo.world eq_refl eq_refl))
             (PosixPath.abspath "/home/u" "out/init.c.o") "/home/u/out/init.c.o"
             eq_refl eq_refl).
  reflexivity.
Defined.

(** X13: compiling what [preprocess] returned gives an object file named after
    the original source with both suffixes, in the output directory of the
    compilation. *)
Theorem compile_after_preprocess `{OT : OfrakType} `{HO : !Host} `{BE : !Backend}
    (self : Toolchain) (source_file : string) (dirs dirs' : list string)
    (out_dir out_dir' : string) (w w' : World) (p q : string) :
  fst (preprocess self source_file dirs out_dir w) = Ok p →
  fst (compile self p dirs' out_dir' w') = Ok q →
  q = PosixPath.abspath (cwd w')
        (PosixPath.join out_dir'
           [(snd (PosixPath.split source_file) +:+ ".p") +:+ ".o"])
  ∧ snd (PosixPath.split q) = (snd (PosixPath.split source_file) +:+ ".p") +:+ ".o".
Proof.
  intros Hp Hq.
  apply (stage_run (get_repository_config name "PREPROCESSOR")) in Hp.
  apply (stage_run (get_repository_config name "COMPILER")) in Hq.
  assert (snd (PosixPath.split p) = snd (PosixPath.split source_file) +:+ ".p") as Hb.
  { rewrite Hp. apply abspath_tail, basename_suffix_plain. by left. }
  assert (snd (PosixPath.split q) = snd (PosixPath.split p) +:+ ".o") as Hb'.
  { rewrite Hq. apply abspath_tail, basename_suffix_plain. by right. }
  rewrite Hb in Hq, Hb'. by split.
Qed.

Lemma compile_after_preprocess_witness :
  "/home/u/obj/a.c.p.o"
  = PosixPath.abspath (cwd Demo.world)
      (PosixPath.join "obj" [(snd (PosixPath.split "src/a.c") +:+ ".p") +:+ ".o"])
  ∧ snd (PosixPath.split "/home/u/obj/a.c.p.o")
    = (snd (PosixPath.split "src/a.c") +:+ ".p") +:+ ".o".
Proof.
  exact (@compile_after_preprocess Demo.ofrak_type (Demo.host 0) Demo.backend
           (Demo.toolchain false false) "src/a.c" ["inc"] [] "gen" "obj"
           Demo.world Demo.world "/home/u/gen/a.c.p" "/home/u/obj/a.c.p.o"
           eq_refl eq_refl).
Defined.

(** ** More on construction *)

(** X14: a driver that [__init__] returns holds the processor and the
    configuration it was given, the format of the configuration, a parser of
    the registered list whose format is that very format, empty flag lists
    for all four tools, and the targets the two hooks answered. *)
Theorem init_postconditions `{OT : OfrakType} `{BE : !Backend}
    (processor : ArchInfo.t) (toolchain_config : ToolchainConfig.t) (self : Toolchain) :
  __init__ processor toolchain_config = Ok self →
  _processor self = processor
  ∧ _config self = toolchain_config
  ∧ file_format self = ToolchainConfig.file_format toolchain_config
  ∧ _parser self ∈ binary_file_parsers
  ∧ py_is (AbstractBinaryFileParser.file_format (_parser self)) (file_format self) = true
  ∧ (_preprocessor_flags self = [] ∧ _compiler_flags self = []
     ∧ _assembler_flags self = [] ∧ _linker_flags self = [])
  ∧ _get_assembler_target toolchain_config processor = Ok (_assembler_target self)
  ∧ _get_compiler_target toolchain_config processor = Ok (_compiler_target self).
Proof.
  unfold __init__.
  destruct (__init___scan binary_file_parsers
              (ToolchainConfig.file_format toolchain_config)) as [parser|] eqn:Hscan;
    [|discriminate].
  apply scan_Some in Hscan as (before & after & Hl & _ & Hm).
  destruct (_get_assembler_target toolchain_config processor) as [a|]; [|discriminate].
  destruct (_get_compiler_target toolchain_config processor) as [c|]; [|discriminate].
  intros [= <-]. cbn.
  repeat split; try done. rewrite Hl. apply elem_of_app. right. apply list_elem_of_here.
Qed.

Lemma init_postconditions_witness :
  _parser (Demo.toolchain false true)
    ∈ @binary_file_parsers Demo.ofrak_type Demo.backend
  ∧ _linker_flags (Demo.toolchain false true) = [].
Proof.
  destruct (@init_postconditions Demo.ofrak_type Demo.backend Demo.processor
              (Demo.config Demo.ELF false true) (Demo.toolchain false true) eq_refl)
    as (_ & _ & _ & Hin & _ & (_ & _ & _ & Hl) & _).
  by split.
Defined.

(** X15: once a parser is found, the assembler target is resolved before the
    compiler target: an error of the first hook is the error of
    construction whatever the second would answer, and an error of the
    second is the error of construction when the first succeeds. *)
Theorem init_hook_precedence `{OT : OfrakType} `{BE : !Backend}
    (processor : ArchInfo.t) (toolchain_config : ToolchainConfig.t) (e : exn) :
  (∃ p, p ∈ binary_file_parsers
        ∧ py_is (AbstractBinaryFileParser.file_format p)
            (ToolchainConfig.file_format toolchain_config) = true) →
  (_get_assembler_target toolchain_config processor = Raise e →
   __init__ processor toolchain_config = Raise e)
  ∧ (∀ a, _get_assembler_target toolchain_config processor = Ok a →
          _get_compiler_target toolchain_config processor = Raise e →
          __init__ processor toolchain_config = Raise e).
Proof.
  intros (p & Hin & Hp). unfold __init__.
  destruct (__init___scan binary_file_parsers
              (ToolchainConfig.file_format toolchain_config)) as [parser|] eqn:Hscan.
  - split; [by intros -> | by intros a -> ->].
  - rewrite scan_None in Hscan. specialize (Hscan p Hin). congruence.
Qed.

(** X16: registering more parsers behind the registered ones never changes a
    selection the list already makes; they are consulted only when no
    earlier parser has the format. *)
Theorem parser_scan_app
    (parsers more : list AbstractBinaryFileParser.t) (fmt : BinFileType.t) :
  __init___scan (parsers ++ more) fmt
  = match __init___scan parsers fmt with
    | Some parser => Some parser
    | None => __init___scan more fmt
    end.
Proof.
  induction parsers as [|q rest IH]; cbn [app __init___scan]; [done|].
  by destruct (py_is (AbstractBinaryFileParser.file_format q) fmt).
Qed.

(** ** More on the section and symbol policies *)

(** X17: for a driver built by [__init__] without [separate_data_sections],
    no section of the discard list is kept. *)
Theorem discard_list_not_kept `{OT : OfrakType} `{BE : !Backend}
    (processor : ArchInfo.t) (toolchain_config : ToolchainConfig.t)
    (self : Toolchain) (section_name : string) :
  __init__ processor toolchain_config = Ok self →
  ToolchainConfig.separate_data_sections toolchain_config = false →
  section_name ∈ _linker_discard_list self →
  keep_section self section_name = Ok false.
Proof.
  intros Hinit Hflag Hin. unfold keep_section.
  revert Hinit Hin. unfold __init__.
  destruct (__init___scan _ _); [|discriminate].
  destruct (_get_assembler_target _ _); [|discriminate].
  destruct (_get_compiler_target _ _); [|discriminate].
  intros [= <-]. cbn [_linker_discard_list _linker_keep_list _config].
  rewrite Hflag. intros Hin. f_equal. revert Hin.
  rewrite !elem_of_cons, elem_of_nil. intros Hin.
  apply bool_decide_eq_false_2. rewrite !elem_of_cons, elem_of_nil.
  intros Hk.
  repeat (destruct Hin as [-> | Hin]; [by repeat (destruct Hk as [Hk | Hk]; try done)|]).
  done.
Qed.

Lemma discard_list_not_kept_witness :
  keep_section (Demo.toolchain false false) ".eh_frame" = Ok false.
Proof.
  apply (@discard_list_not_kept Demo.ofrak_type Demo.backend Demo.processor
           (Demo.config Demo.ELF false false) (Demo.toolchain false false)
           ".eh_frame" eq_refl eq_refl).
  cbn [_linker_discard_list Demo.toolchain]. rewrite !elem_of_cons. tauto.
Defined.

(** X18: the keep list is matched exactly, not as a prefix: a kept name
    followed by anything is not kept. *)
Theorem keep_section_exact `{OT : OfrakType} `{BE : !Backend}
    (processor : ArchInfo.t) (toolchain_config : ToolchainConfig.t)
    (self : Toolchain) (section_name rest : string) :
  __init__ processor toolchain_config = Ok self →
  keep_section self section_name = Ok true →
  rest ≠ EmptyString →
  keep_section self (section_name +:+ rest) = Ok false.
Proof.
  intros Hinit Hkept Hrest.
  assert (_linker_keep_list self = [".data"; ".rodata"; ".text"; ".rel"]) as Hlist.
  { revert Hinit. unfold __init__.
    destruct (__init___scan _ _); [|discriminate].
    destruct (_get_assembler_target _ _); [|discriminate].
    destruct (_get_compiler_target _ _); [|discriminate].
    by intros [= <-]. }
  unfold keep_section in *.
  destruct (ToolchainConfig.separate_data_sections (_config self)); [discriminate|].
  injection Hkept as Hkept. apply bool_decide_eq_true in Hkept.
  f_equal. apply bool_decide_eq_false_2.
  rewrite Hlist, !elem_of_cons, elem_of_nil in *.
  intros Hk.
  destruct Hkept as [-> | [-> | [-> | [-> | []]]]];
    destruct Hk as [Hk | [Hk | [Hk | [Hk | []]]]];
    str_simpl_in Hk; try discriminate;
    injection Hk as Hk; by apply Hrest.
Qed.

Lemma keep_section_exact_witness :
  keep_section (Demo.toolchain false false) (".text" +:+ ".startup") = Ok false.
Proof.
  apply (@keep_section_exact Demo.ofrak_type Demo.backend Demo.processor
           (Demo.config Demo.ELF false false) (Demo.toolchain false false)
           ".text" ".startup" eq_refl eq_refl).
  discriminate.
Defined.

(** X19: [linker_include_filter] is closed under extension: a name that
    contains a name passing the filter passes it too; the empty name does
    not pass. *)
Theorem linker_include_filter_extension (pre symbol_name post : string) :
  linker_include_filter EmptyString = false
  ∧ (linker_include_filter symbol_name = true →
     linker_include_filter (pre +:+ symbol_name +:+ post) = true).
Proof.
  split; [reflexivity|].
  unfold linker_include_filter. rewrite !orb_true_iff, !contains_spec.
  intros [(a & b & ->) | (a & b & ->)]; [left | right];
    exists (pre +:+ a), (b +:+ post); by rewrite !append_assoc.
Qed.

Lemma linker_include_filter_extension_witness :
  linker_include_filter ("__" +:+ "_DYNAMIC" +:+ "_end") = true.
Proof.
  by apply (proj2 (linker_include_filter_extension "__" "_DYNAMIC" "_end")).
Defined.

Lemma init_hook_precedence_witness :
  @__init__ Demo.ofrak_type Bare.backend Demo.processor (Demo.config Demo.ELF false false)
  = Raise (OtherException "PatchMakerException" "no assembler target").
Proof.
  apply (@init_hook_precedence Demo.ofrak_type Bare.backend Demo.processor
           (Demo.config Demo.ELF false false)); [|reflexivity].
  exists Demo.elf_parser. split; [apply list_elem_of_here | reflexivity].
Defined.

(** ** The assembler path *)

Lemma upper_ascii_idem (a : ascii) :
  PyStr.upper_ascii (PyStr.upper_ascii a) = PyStr.upper_ascii a.
Proof. destruct a as [[] [] [] [] [] [] [] []]; reflexivity. Qed.

Lemma upper_idem (p : string) : PyStr.upper (PyStr.upper p) = PyStr.upper p.
Proof.
  induction p as [|a p IH]; [done|]. cbn [PyStr.upper].
  by rewrite upper_ascii_idem, IH.
Qed.

Lemma upper_app (p q : string) :
  PyStr.upper (p +:+ q) = PyStr.upper p +:+ PyStr.upper q.
Proof.
  induction p as [|a p IH]; [done|]. str_simpl. cbn [PyStr.upper]. str_simpl.
  by rewrite IH.
Qed.

(** X20: the path of the assembler is always looked up in the section [ASM]
    of the repository configuration, under an upper-case key that ends in
    [_ASM_PATH]; the lookup changes nothing. *)
Theorem assembler_lookup_key `{OT : OfrakType} `{HO : !Host} (self : Toolchain)
    (w : World) :
  ∃ key, _assembler_path self w = (get_repository_config "ASM" key, w)
         ∧ PyStr.endswith "_ASM_PATH" key = true
         ∧ PyStr.upper key = key.
Proof.
  unfold _assembler_path, lift.
  destruct (bool_decide _); [|destruct (_ && _)].
  - by exists "M68K_ASM_PATH".
  - by exists "X86_64_ASM_PATH".
  - eexists. split; [reflexivity|]. split.
    + apply endswith_spec. by eexists.
    + by rewrite upper_app, upper_idem.
Qed.
